(** * FinTrack-AI: the stock performance calculator and the brokerage CSV parser

    A shallow embedding of [services/stock.ts] ([calculateStockPerformance],
    [parseStockTransactionCSV]) and of [services/storage.ts]
    ([getFeeDiscount]), with the JavaScript values they handle:

    - a JS string is its sequence of UTF-16 code units ([jsstring]);
    - a JS number is an IEEE 754 binary64 value, here the Standard Library's
      [spec_float] with its correctly rounded operations at precision 53;
    - [localStorage] is a finite map from keys to stored strings;
    - [undefined] and [null] are [None];
    - [crypto.randomUUID()] is a sequence of identifiers, read in the order
      of the calls;
    - a thrown exception is a result of its own, which the [catch] of the
      row loop turns into a skipped row. *)

From Stdlib Require Import ZArith NArith Lia Bool List.
From Stdlib Require Import Strings.String Strings.Ascii.
From Stdlib Require Import Floats.
From stdpp Require Import base option list gmap.

Local Open Scope Z_scope.
#[local] Set Warnings "-inexact-float".

(** ** JavaScript strings *)

Module JsString.

(** A code unit of UTF-16. *)
Definition char16 : Type := N.

Definition jsstring : Type := list char16.

(** The bytes of a Rocq string literal (the file is UTF-8). *)
Fixpoint bytes_of (s : string) : list N :=
  match s with
  | EmptyString => []
  | String c r => N_of_ascii c :: bytes_of r
  end.

(** The low six bits of a UTF-8 continuation byte. *)
Definition cont (b : N) : N := N.land b 63.

(** UTF-8 to UTF-16: one, two and three byte sequences give one code unit,
    a four byte sequence gives a surrogate pair. A truncated sequence is
    dropped. *)
Fixpoint utf16_of_utf8 (bs : list N) : jsstring :=
  match bs with
  | [] => []
  | b0 :: r0 =>
      if (b0 <? 128)%N then b0 :: utf16_of_utf8 r0
      else if (b0 <? 224)%N then
        match r0 with
        | b1 :: r1 => (N.land b0 31 * 64 + cont b1)%N :: utf16_of_utf8 r1
        | [] => []
        end
      else if (b0 <? 240)%N then
        match r0 with
        | b1 :: b2 :: r2 =>
            (N.land b0 15 * 4096 + cont b1 * 64 + cont b2)%N :: utf16_of_utf8 r2
        | _ => []
        end
      else
        match r0 with
        | b1 :: b2 :: b3 :: r3 =>
            let cp := (N.land b0 7 * 262144 + cont b1 * 4096 + cont b2 * 64 + cont b3)%N in
            let v := (cp - 65536)%N in
            (55296 + N.shiftr v 10)%N :: (56320 + N.land v 1023)%N :: utf16_of_utf8 r3
        | _ => []
        end
  end.

(** The JS string written as a literal in this file. *)
Definition js (s : string) : jsstring := utf16_of_utf8 (bytes_of s).

Definition char_eqb (a b : char16) : bool := (a =? b)%N.

(** [s.startsWith(p)] *)
Fixpoint startsWith (s p : jsstring) {struct p} : bool :=
  match p, s with
  | [], _ => true
  | _ :: _, [] => false
  | c :: p', d :: s' => char_eqb c d && startsWith s' p'
  end.

(** [s.includes(p)] *)
Fixpoint includes (s p : jsstring) : bool :=
  startsWith s p ||
  match s with
  | [] => false
  | _ :: s' => includes s' p
  end.

(** White space and line terminators, as [String.prototype.trim] and
    [parseFloat] strip them. *)
Definition isWhiteSpace (c : char16) : bool :=
  ((9 <=? c) && (c <=? 13) || (c =? 32) || (c =? 160) || (c =? 5760)
   || (8192 <=? c) && (c <=? 8202) || (c =? 8232) || (c =? 8233)
   || (c =? 8239) || (c =? 8287) || (c =? 12288) || (c =? 65279))%N.

Fixpoint trimStart (s : jsstring) : jsstring :=
  match s with
  | c :: s' => if isWhiteSpace c then trimStart s' else s
  | [] => []
  end.

Definition trimEnd (s : jsstring) : jsstring := rev (trimStart (rev s)).

(** [s.trim()] *)
Definition trim (s : jsstring) : jsstring := trimEnd (trimStart s).

(** [s.split(c)] for a separator of one code unit: the pieces between the
    separators, the empty ones too; the empty string gives one empty piece. *)
Fixpoint split (sep : char16) (s : jsstring) : list jsstring :=
  match s with
  | [] => [[]]
  | c :: s' =>
      if char_eqb c sep then [] :: split sep s'
      else match split sep s' with
           | p :: ps => (c :: p) :: ps
           | [] => [[c]]
           end
  end.

(** [s.replace(/c/g, '')] for one code unit [c]. *)
Definition removeAll (c : char16) (s : jsstring) : jsstring :=
  List.filter (fun d => negb (char_eqb d c)) s.

(** [s.replace(/a/g, b)] for code units [a] and [b]. *)
Definition replaceAll (a b : char16) (s : jsstring) : jsstring :=
  List.map (fun d => if char_eqb d a then b else d) s.

(** [xs.join(sep)] *)
Fixpoint join (sep : jsstring) (xs : list jsstring) : jsstring :=
  match xs with
  | [] => []
  | [x] => x
  | x :: rest => x ++ sep ++ join sep rest
  end.

(** A value used as a condition: the empty string and [undefined] are falsy. *)
Definition truthy (s : option jsstring) : bool :=
  match s with
  | Some (_ :: _) => true
  | _ => false
  end.

Definition isDigit (c : char16) : bool := ((48 <=? c) && (c <=? 57))%N.

Definition QUOTE : char16 := 34%N.
Definition COMMA : char16 := 44%N.
Definition SLASH : char16 := 47%N.
Definition HYPHEN : char16 := 45%N.
Definition NEWLINE : char16 := 10%N.

End JsString.
Import JsString.

(** ** JavaScript numbers *)

Module JsNumber.

Definition number : Type := spec_float.

Definition NaN : number := S754_nan.
Definition zero : number := S754_zero false.

Definition mul : number -> number -> number := SFmul prec emax.
Definition add : number -> number -> number := SFadd prec emax.
Definition sub : number -> number -> number := SFsub prec emax.
Definition div : number -> number -> number := SFdiv prec emax.

(** [a < b], [a <= b], [a > b] and [a === b]; all false on [NaN]. *)
Definition lt : number -> number -> bool := SFltb.
Definition le : number -> number -> bool := SFleb.
Definition gt (a b : number) : bool := SFltb b a.
Definition strictEq : number -> number -> bool := SFeqb.

Definition isNaN (x : number) : bool :=
  match x with
  | S754_nan => true
  | _ => false
  end.

(** The nearest binary64 value (ties to even) of the fraction [n / d],
    signed by [s]. *)
Definition of_ratio (s : bool) (n d : positive) : number :=
  let '(q, e, l) := SFdiv_core_binary prec emax (Zpos n) 0 (Zpos d) 0 in
  binary_round_aux prec emax s q e l.

(** The nearest binary64 value of [m * 10 ^ e], a decimal literal. A zero
    mantissa keeps the sign. *)
Definition of_decimal (s : bool) (m : N) (e : Z) : number :=
  match m with
  | N0 => S754_zero s
  | Npos p =>
      if 0 <=? e then of_ratio s (p * Z.to_pos (10 ^ e)) 1
      else of_ratio s p (Z.to_pos (10 ^ (- e)))
  end.

(** An integer as a number. *)
Definition of_Z (z : Z) : number := binary_normalize prec emax z 0 false.

(** A positive integer below [2 ^ 53], which is a binary64 value as it is. *)
Definition of_small_pos (s : bool) (p : positive) : number :=
  let '(m, e) := shl_align p 0 (Zpos (digits2_pos p) - prec) in
  S754_finite s m e.

(** [Math.floor(x)]: a NaN, an infinity, a zero and an integer are
    returned as they are; otherwise the magnitude [m * 2 ^ e] with [e < 0]
    is cut to its integer part [q], one more for a negative number. *)
Definition Math_floor (x : number) : number :=
  match x with
  | S754_finite s m e =>
      if 0 <=? e then x
      else
        let q := Z.shiftr (Zpos m) (- e) in
        let fractional := negb (Z.shiftl q (- e) =? Zpos m) in
        match (if s && fractional then q + 1 else q) with
        | Zpos p => of_small_pos s p
        | _ => S754_zero s
        end
  | _ => x
  end.

(** A number used as a condition: [0], [-0] and [NaN] are falsy. *)
Definition truthy (x : number) : bool :=
  match x with
  | S754_zero _ | S754_nan => false
  | _ => true
  end.

(** [Number(v)] for a field that holds a number or is [undefined]. *)
Definition Number (v : option number) : number :=
  match v with
  | Some x => x
  | None => NaN
  end.

(** [x || 0] *)
Definition orZero (x : number) : number := if truthy x then x else zero.

End JsNumber.
Import JsNumber.



(** [parseFloat(s)]: leading white space is skipped, then the longest prefix
    that is a decimal literal is read (a sign, then [Infinity] or digits with
    an optional fraction and an optional complete exponent); what follows is
    ignored, and no digit at all gives [NaN]. *)
Module ParseFloat.

Fixpoint span_digits (s : jsstring) : jsstring * jsstring :=
  match s with
  | c :: s' =>
      if isDigit c then let '(ds, r) := span_digits s' in (c :: ds, r)
      else ([], s)
  | [] => ([], [])
  end.

Definition digits_value (ds : jsstring) : N :=
  fold_left (fun acc c => (acc * 10 + (c - 48))%N) ds 0%N.

(** An optional sign: [true] for a minus. *)
Definition read_sign (s : jsstring) : bool * jsstring :=
  match s with
  | c :: r =>
      if (c =? 45)%N then (true, r)
      else if (c =? 43)%N then (false, r)
      else (false, s)
  | [] => (false, [])
  end.

(** The fraction after a decimal point, if there is a point. *)
Definition read_fraction (s : jsstring) : jsstring * jsstring :=
  match s with
  | c :: r => if (c =? 46)%N then span_digits r else ([], s)
  | [] => ([], [])
  end.

(** The value of an exponent part [e], [E] with an optional sign and at
    least one digit; [0] when there is none or it is incomplete. *)
Definition read_exponent (s : jsstring) : Z :=
  match s with
  | c :: r =>
      if ((c =? 101) || (c =? 69))%N then
        let '(minus, r') := read_sign r in
        let '(ds, _) := span_digits r' in
        match ds with
        | [] => 0
        | _ => let v := Z.of_N (digits_value ds) in if minus then - v else v
        end
      else 0
  | [] => 0
  end.

Definition parseFloat (input : jsstring) : number :=
  let '(minus, t1) := read_sign (trimStart input) in
  if startsWith t1 (js "Infinity") then S754_infinity minus
  else
    let '(ip, t2) := span_digits t1 in
    let '(fp, t3) := read_fraction t2 in
    match ip ++ fp with
    | [] => NaN
    | ds => of_decimal minus (digits_value ds)
              (read_exponent t3 - Z.of_nat (length fp))
    end.

End ParseFloat.
Import ParseFloat.


(** ** [localStorage] and the fee discount ([services/storage.ts]) *)

Abbreviation Storage := (gmap jsstring jsstring).

(** [localStorage.getItem(key)]: the stored string, or [null]. *)
Definition getItem (localStorage : Storage) (key : jsstring) : option jsstring :=
  localStorage !! key.

Module STORAGE_KEYS.
Definition FEE_DISCOUNT : jsstring := js "ft_stock_fee_discount".
End STORAGE_KEYS.

Definition getFeeDiscount (localStorage : Storage) : number :=
  let data := getItem localStorage STORAGE_KEYS.FEE_DISCOUNT in
  if JsString.truthy data then parseFloat (default [] data)
  else of_decimal false 28 (-2).

(** ** The data model ([types.ts]) *)

(** The stock fields of an [Asset] that the calculator reads; each is
    optional in the interface. *)
Record Asset : Type := {
  symbol : option jsstring;
  shares : option number;
  avgCost : option number;
  currentPrice : option number;
  isEtf : option bool
}.

Inductive TransactionType : Type := EXPENSE | INCOME | DIVIDEND.

Record Transaction : Type := {
  t_id : jsstring;
  t_date : jsstring;
  amount : number;
  category : jsstring;
  item : jsstring;
  note : option jsstring;
  type : TransactionType
}.

Record StockPerformanceResult : Type := {
  totalCost : number;
  marketValue : number;
  estimatedReturn : number;
  netProfit : number;
  roi : number;
  buyFee : number;
  sellFee : number;
  tax : number;
  totalDividends : number
}.

(** ** The performance calculator ([services/stock.ts]) *)

Definition isDividend (t : Transaction) : bool :=
  match type t with
  | DIVIDEND => true
  | _ => false
  end.

Definition feeRate : number := of_decimal false 1425 (-6).
Definition minFee : number := of_Z 20.

(** The inner [calculateFee], with the variables it closes over. *)
Definition calculateFee (shares feeDiscount price : number) : number :=
  let fee := Math_floor (mul (mul (mul price shares) feeRate) feeDiscount) in
  if lt fee minFee then minFee else fee.

Definition calculateStockPerformance (localStorage : Storage) (stock : Asset)
    (transactions : list Transaction) : StockPerformanceResult :=
  let shares := orZero (Number (shares stock)) in
  let avgCost := orZero (Number (avgCost stock)) in
  let currentPrice := orZero (Number (currentPrice stock)) in
  let totalDividends :=
    match symbol stock with
    | Some sym =>
        if JsString.truthy (Some sym) && (0 <? length transactions)%nat then
          fold_left (fun sum t => add sum (amount t))
            (List.filter
               (fun t => isDividend t &&
                         (includes (item t) sym ||
                          match note t with
                          | Some n => includes n sym
                          | None => false
                          end))
               transactions)
            zero
        else zero
    | None => zero
    end in
  if strictEq shares zero || strictEq avgCost zero then
    {| totalCost := zero; marketValue := zero; estimatedReturn := zero;
       netProfit := zero; roi := zero; buyFee := zero; sellFee := zero;
       tax := zero; totalDividends := totalDividends |}
  else
    let feeDiscount := getFeeDiscount localStorage in
    let isActuallyEtf :=
      match isEtf stock with
      | Some b => b
      | None =>
          match symbol stock with
          | Some sym => startsWith sym (js "00")
          | None => false
          end
      end in
    let taxRate :=
      if isActuallyEtf then of_decimal false 1 (-3) else of_decimal false 3 (-3) in
    let buyValue := mul avgCost shares in
    let buyFee := calculateFee shares feeDiscount avgCost in
    let totalCost := add buyValue buyFee in
    let marketValue := mul currentPrice shares in
    let sellFee := calculateFee shares feeDiscount currentPrice in
    let tax := Math_floor (mul marketValue taxRate) in
    let estimatedReturn := sub (sub marketValue sellFee) tax in
    let netProfit := sub estimatedReturn totalCost in
    let roi :=
      if gt totalCost zero then mul (div netProfit totalCost) (of_Z 100)
      else zero in
    {| totalCost := totalCost; marketValue := marketValue;
       estimatedReturn := estimatedReturn; netProfit := netProfit; roi := roi;
       buyFee := buyFee; sellFee := sellFee; tax := tax;
       totalDividends := totalDividends |}.

(** The position's numbers after coercion, as the calculator uses them. *)
Definition coercedShares (stock : Asset) : number := orZero (Number (shares stock)).
Definition coercedAvgCost (stock : Asset) : number := orZero (Number (avgCost stock)).
Definition coercedCurrentPrice (stock : Asset) : number :=
  orZero (Number (currentPrice stock)).

(** The product that [calculateFee] floors. *)
Definition feeProduct (shares feeDiscount price : number) : number :=
  mul (mul (mul price shares) feeRate) feeDiscount.

(** [Math.max(a, b)]: [NaN] when either is, and [+0] above [-0]. *)
Definition Math_max (a b : number) : number :=
  if isNaN a || isNaN b then NaN
  else if lt a b then b
  else if lt b a then a
  else match a with
       | S754_zero true => b
       | _ => a
       end.

(** A transaction is attributed to a symbol when it is a dividend and its
    item or its note contains the symbol. *)
Definition attributed (sym : jsstring) (t : Transaction) : bool :=
  isDividend t &&
  (includes (item t) sym || from_option (fun n => includes n sym) false (note t)).

(** The amounts of the dividends attributed to a symbol, added up from [0]
    in the order of the list. *)
Definition dividendSum (sym : jsstring) (transactions : list Transaction) : number :=
  fold_left (fun sum t => add sum (amount t))
    (List.filter (attributed sym) transactions) zero.

(** A position is an ETF by its explicit flag or, without one, by the
    prefix [00] of its symbol. *)
Definition classifiedEtf (stock : Asset) : Prop :=
  isEtf stock = Some true \/
  (isEtf stock = None /\
   exists sym, symbol stock = Some sym /\ startsWith sym (js "00") = true).

Definition stock_2330 : Asset :=
  {| symbol := Some (js "2330"); shares := Some (of_Z 1000);
     avgCost := Some (of_Z 600); currentPrice := Some (of_Z 650);
     isEtf := Some false |}.

(** A [localStorage] that holds [v] as the fee discount. *)
Definition storage_of (v : jsstring) : Storage := {[ STORAGE_KEYS.FEE_DISCOUNT := v ]}.

(** A position that holds nothing and whose symbol is the empty string, and
    a dividend of 100. *)
Definition stock_unnamed : Asset :=
  {| symbol := Some []; shares := Some zero; avgCost := Some zero;
     currentPrice := None; isEtf := None |}.

Definition dividend_100 : Transaction :=
  {| t_id := js "t1"; t_date := js "2024-07-01"; amount := of_Z 100;
     category := js "投資"; item := js "2330 股利"; note := None;
     type := DIVIDEND |}.


(** ** The brokerage CSV parser ([services/stock.ts]) *)

Inductive Side : Type := BUY | SELL.

Module Tx.
Record StockTransaction : Type := {
  id : jsstring;
  date : jsstring;
  symbol : jsstring;
  side : Side;
  tradeType : jsstring;
  shares : number;
  price : number;
  fees : number;
  realizedProfit : option number;
  amount : number
}.
End Tx.
Abbreviation StockTransaction := Tx.StockTransaction.

(** The column of each logical field in the header, [-1] when there is none. *)
Module ColumnMap.
Record t : Type := {
  date : Z;
  symbol : Z;
  side : Z;
  shares : Z;
  price : Z;
  amount : Z;
  realizedProfit : Z;
  fee : Z;
  tax : Z
}.
End ColumnMap.

(** What the parser returns: the records and the error, [null] being [None]. *)
Record ParseResult : Type := {
  transactions : list StockTransaction;
  error : option jsstring
}.

(** [xs.findIndex(f)], counting from [i]. *)
Fixpoint findIndexFrom {A : Type} (f : A -> bool) (i : Z) (xs : list A) : Z :=
  match xs with
  | [] => -1
  | x :: rest => if f x then i else findIndexFrom f (i + 1) rest
  end.

Definition findIndex {A : Type} (f : A -> bool) (xs : list A) : Z :=
  findIndexFrom f 0 xs.

(** [xs[i]]: [undefined] out of range. *)
Definition at_index {A : Type} (xs : list A) (i : Z) : option A :=
  if i <? 0 then None else xs !! Z.to_nat i.

(** The first header that contains the first keyword that some header
    contains. *)
Fixpoint findColumnIndex (headers : list jsstring) (keywords : list jsstring) : Z :=
  match keywords with
  | [] => -1
  | keyword :: rest =>
      let index := findIndex (fun header => includes header keyword) headers in
      if negb (index =? -1) then index else findColumnIndex headers rest
  end.

Definition columnMap (headers : list jsstring) : ColumnMap.t :=
  {| ColumnMap.date := findColumnIndex headers [js "成交日期"];
     ColumnMap.symbol := findColumnIndex headers [js "股票代號"];
     ColumnMap.side := findColumnIndex headers [js "買賣別"; js "買賣"];
     ColumnMap.shares := findColumnIndex headers [js "成交數量"; js "股數"; js "成交股數"];
     ColumnMap.price := findColumnIndex headers [js "成交價"; js "成交單價"; js "成交價格"];
     ColumnMap.amount := findColumnIndex headers [js "應收付帳款"; js "收付金額"; js "發生金額"];
     ColumnMap.realizedProfit := findColumnIndex headers [js "損益"];
     ColumnMap.fee := findColumnIndex headers [js "手續費"];
     ColumnMap.tax := findColumnIndex headers [js "交易稅"] |}.

(** A required field: the key of its column and the name it is reported by. *)
Definition requiredFields : list ((ColumnMap.t -> Z) * jsstring) :=
  [ (ColumnMap.date, js "成交日期"); (ColumnMap.symbol, js "股票代號");
    (ColumnMap.side, js "買賣別"); (ColumnMap.shares, js "成交數量");
    (ColumnMap.price, js "成交價"); (ColumnMap.amount, js "應收付帳款") ].

Definition missingColumns (cm : ColumnMap.t) : list ((ColumnMap.t -> Z) * jsstring) :=
  List.filter (fun field => fst field cm =? -1) requiredFields.

Definition cleanNumber (str : option jsstring) : number :=
  match str with
  | Some (c :: s) =>
      let cleaned := removeAll COMMA (removeAll QUOTE (c :: s)) in
      let num := parseFloat cleaned in
      if isNaN num then zero else num
  | _ => zero
  end.

(** The remainder of a line holds an even number of quotes: what the
    lookahead of the splitting expression demands after a comma. *)
Definition evenQuotes (s : jsstring) : bool :=
  Nat.even (length (List.filter (char_eqb QUOTE) s)).

(** [line.split(re)] for the expression of the source, a comma with a
    lookahead for pairs of quotes up to the end: the line is cut at the commas
    that are followed by an even number of quotes. *)
Fixpoint splitOutsideQuotes (line : jsstring) : list jsstring :=
  match line with
  | [] => [[]]
  | c :: rest =>
      if char_eqb c COMMA && evenQuotes rest then [] :: splitOutsideQuotes rest
      else match splitOutsideQuotes rest with
           | p :: ps => (c :: p) :: ps
           | [] => [[c]]
           end
  end.

(** An optional slash. *)
Definition skipSlash (s : jsstring) : jsstring :=
  match s with
  | c :: rest => if char_eqb c SLASH then rest else s
  | [] => []
  end.

(** [dateStr.match(/^\d{4}\/?\d{2}\/?\d{2}/)] finds a match. *)
Definition matchesDate (dateStr : jsstring) : bool :=
  match dateStr with
  | y1 :: y2 :: y3 :: y4 :: r1 =>
      isDigit y1 && isDigit y2 && isDigit y3 && isDigit y4 &&
      match skipSlash r1 with
      | m1 :: m2 :: r2 =>
          isDigit m1 && isDigit m2 &&
          match skipSlash r2 with
          | d1 :: d2 :: _ => isDigit d1 && isDigit d2
          | _ => false
          end
      | _ => false
      end
  | _ => false
  end.

(** [parts[i]?.trim()] with its quotes removed; [undefined] stays. *)
Definition cell (parts : list jsstring) (i : Z) : option jsstring :=
  option_map (fun p => removeAll QUOTE (trim p)) (at_index parts i).

(** How the body of the [try] block of one row ends. *)
Inductive Completion : Type :=
| Continue
| Throw
| Push (t : StockTransaction).

(** The [try] block for one line; [uuid] is what [crypto.randomUUID()]
    returns if the row gets as far as calling it. Reading [trim] of a side
    cell that is [undefined] throws a [TypeError]. *)
Definition tryRow (cm : ColumnMap.t) (uuid : jsstring) (line : jsstring) : Completion :=
  let parts := splitOutsideQuotes line in
  let symbol := cell parts (ColumnMap.symbol cm) in
  let dateStr := cell parts (ColumnMap.date cm) in
  if negb (JsString.truthy symbol) || negb (JsString.truthy dateStr)
     || negb (matchesDate (default [] dateStr))
  then Continue
  else
    match at_index parts (ColumnMap.side cm) with
    | None => Throw
    | Some sideCell =>
        let sideText := removeAll QUOTE (trim sideCell) in
        let side := if includes sideText (js "買") then BUY else SELL in
        let fees :=
          if negb (ColumnMap.fee cm =? -1)
          then cleanNumber (at_index parts (ColumnMap.fee cm)) else zero in
        let tax :=
          if negb (ColumnMap.tax cm =? -1)
          then cleanNumber (at_index parts (ColumnMap.tax cm)) else zero in
        let totalFees := add fees tax in
        let realizedProfitValue :=
          match side with
          | SELL =>
              if negb (ColumnMap.realizedProfit cm =? -1)
              then cleanNumber (at_index parts (ColumnMap.realizedProfit cm))
              else zero
          | BUY => zero
          end in
        Push {| Tx.id := uuid;
                Tx.date := replaceAll SLASH HYPHEN (default [] dateStr);
                Tx.symbol := default [] symbol;
                Tx.side := side;
                Tx.tradeType := [];
                Tx.shares := cleanNumber (at_index parts (ColumnMap.shares cm));
                Tx.price := cleanNumber (at_index parts (ColumnMap.price cm));
                Tx.fees := totalFees;
                Tx.realizedProfit := Some realizedProfitValue;
                Tx.amount := cleanNumber (at_index parts (ColumnMap.amount cm)) |}
    end.

(** The loop over the data lines. [randomUUID n] is the value of the call
    number [n] of [crypto.randomUUID()]; a row that is pushed has made one
    call. A row that throws is caught (and reported by [console.warn]), and
    the loop goes on. *)
Fixpoint parseRows (cm : ColumnMap.t) (randomUUID : nat -> jsstring)
    (lines : list jsstring) (transactions : list StockTransaction)
    : list StockTransaction :=
  match lines with
  | [] => transactions
  | line :: rest =>
      if includes line (js "小計") || includes line (js "總計")
      then parseRows cm randomUUID rest transactions
      else
        match tryRow cm (randomUUID (length transactions)) line with
        | Continue => parseRows cm randomUUID rest transactions
        | Throw => parseRows cm randomUUID rest transactions
        | Push t => parseRows cm randomUUID rest (transactions ++ [t])
        end
  end.

(** The trimmed, non-empty lines of the text. *)
Definition csvLines (csvText : jsstring) : list jsstring :=
  List.filter (fun line => JsString.truthy (Some line))
    (List.map trim (split NEWLINE csvText)).

(** The column names of the header line. *)
Definition headersOf (headerLine : jsstring) : list jsstring :=
  List.map (fun h => removeAll QUOTE (trim h)) (split COMMA headerLine).

Definition parseStockTransactionCSV (randomUUID : nat -> jsstring)
    (csvText : jsstring) : ParseResult :=
  let lines := csvLines csvText in
  if (length lines <? 2)%nat then
    {| transactions := [];
       error := Some (js "CSV 檔案是空的或缺少標題列 (Header)。") |}
  else
    let headers := headersOf (default [] (lines !! 0%nat)) in
    let cm := columnMap headers in
    let missing := missingColumns cm in
    if (0 <? length missing)%nat then
      let missingNames := List.map snd missing in
      {| transactions := [];
         error := Some (js "CSV 檔案缺少必要的欄位，請檢查是否包含：" ++
                        join (js "、") missingNames) |}
    else
      {| transactions := parseRows cm randomUUID (drop 1 lines) [];
         error := None |}.

(** The CSV of the round-trip example: the six required columns and one
    purchase. *)
Definition csv_one_buy : jsstring :=
  js "成交日期,股票代號,買賣別,成交數量,成交價,應收付帳款" ++ [NEWLINE] ++
  js "2024/01/15,2330,買進,1000,600,-600020".

(** Some header contains some keyword of a field's variants. *)
Definition hasColumn (headers keywords : list jsstring) : bool :=
  existsb (fun keyword => existsb (fun header => includes header keyword) headers)
    keywords.

(** The required fields by the words of the format: the keyword variants
    that a header may carry, and the name the field is reported by. *)
Definition requiredVariants : list (list jsstring * jsstring) :=
  [ ([js "成交日期"], js "成交日期");
    ([js "股票代號"], js "股票代號");
    ([js "買賣別"; js "買賣"], js "買賣別");
    ([js "成交數量"; js "股數"; js "成交股數"], js "成交數量");
    ([js "成交價"; js "成交單價"; js "成交價格"], js "成交價");
    ([js "應收付帳款"; js "收付金額"; js "發生金額"], js "應收付帳款") ].

(** The required fields that the headers have no column for. *)
Definition lackingFields (headers : list jsstring) : list (list jsstring * jsstring) :=
  List.filter (fun field => negb (hasColumn headers (fst field))) requiredVariants.

(** The data lines of a text: its lines after the header line. *)
Definition dataLines (csvText : jsstring) : list jsstring := drop 1 (csvLines csvText).

(** The column map that the parser builds for a text. *)
Definition columnsOf (csvText : jsstring) : ColumnMap.t :=
  columnMap (headersOf (default [] (csvLines csvText !! 0%nat))).

(** A data line that gives no record: it is a subtotal or a total, or its
    symbol or its date is missing or empty, or its date does not start as a
    date, or its [try] block throws. *)
Definition givesNoRecord (cm : ColumnMap.t) (line : jsstring) : Prop :=
  let parts := splitOutsideQuotes line in
  includes line (js "小計") = true \/
  includes line (js "總計") = true \/
  JsString.truthy (cell parts (ColumnMap.symbol cm)) = false \/
  JsString.truthy (cell parts (ColumnMap.date cm)) = false \/
  matchesDate (default [] (cell parts (ColumnMap.date cm))) = false \/
  (forall uuid, tryRow cm uuid line = Throw).

(** The record [t] is the one pushed for the data line [line]. *)
Definition recordOf (cm : ColumnMap.t) (line : jsstring) (t : StockTransaction) : Prop :=
  includes line (js "小計") = false /\
  includes line (js "總計") = false /\
  exists uuid, tryRow cm uuid line = Push t.

(** A header without an amount column, and one data line. *)
Definition csv_no_amount : jsstring :=
  js "成交日期,股票代號,買賣別,成交數量,成交價" ++ [NEWLINE] ++
  js "2024/01/15,2330,買進,1000,600".

(** A header line alone, without an amount column. *)
Definition csv_header_only : jsstring := js "成交日期,股票代號,買賣別,成交數量,成交價".

(** Two trades with a subtotal line between them, and the same without it. *)
Definition csv_with_subtotal : jsstring :=
  js "成交日期,股票代號,買賣別,成交數量,成交價,應收付帳款,損益" ++ [NEWLINE] ++
  js "2024/01/15,2330,買進,1000,600,-600020," ++ [NEWLINE] ++
  js "小計,,,,,-600020," ++ [NEWLINE] ++
  js "2024/02/20,2330,賣出,1000,650,647791,47552".

Definition csv_without_subtotal : jsstring :=
  js "成交日期,股票代號,買賣別,成交數量,成交價,應收付帳款,損益" ++ [NEWLINE] ++
  js "2024/01/15,2330,買進,1000,600,-600020," ++ [NEWLINE] ++
  js "2024/02/20,2330,賣出,1000,650,647791,47552".

(** A source of identifiers for the examples. *)
Definition uuid_example (n : nat) : jsstring := js "uuid-" ++ [(48 + N.of_nat n)%N].

(** The sale of [csv_with_subtotal] as the parser returns it. *)
Definition sale_record : StockTransaction :=
  {| Tx.id := uuid_example 1; Tx.date := js "2024-02-20"; Tx.symbol := js "2330";
     Tx.side := SELL; Tx.tradeType := []; Tx.shares := of_Z 1000;
     Tx.price := of_Z 650; Tx.fees := zero;
     Tx.realizedProfit := Some (of_Z 47552); Tx.amount := of_Z 647791 |}.

(** ** The inventory CSV parser ([services/stock.ts]) *)

Module Inv.
(** The fragment of an [Asset] that a line of an inventory export gives;
    [name] is [undefined] when the line has no such cell. *)
Record InventoryAsset : Type := {
  symbol : jsstring;
  name : option jsstring;
  shares : number;
  avgCost : number;
  currentPrice : number
}.

(** The columns of the inventory fields, [-1] when there is none. *)
Record Columns : Type := {
  c_symbol : Z;
  c_name : Z;
  c_shares : Z;
  c_avgCost : Z;
  c_currentPrice : Z
}.

Record Result : Type := {
  assets : list InventoryAsset;
  error : option jsstring
}.
End Inv.

Definition DOT : char16 := 46%N.

Definition inventoryColumnMap (headers : list jsstring) : Inv.Columns :=
  {| Inv.c_symbol := findColumnIndex headers [js "股票代號"];
     Inv.c_name := findColumnIndex headers [js "股票名稱"];
     Inv.c_shares := findColumnIndex headers [js "合計庫存數量"];
     Inv.c_avgCost := findColumnIndex headers [js "成本均價"];
     Inv.c_currentPrice := findColumnIndex headers [js "現價"] |}.

(** The required fields of the inventory, each the key of its column with
    the key's own name, by which it is reported. *)
Definition inventoryRequiredFields : list ((Inv.Columns -> Z) * jsstring) :=
  [ (Inv.c_symbol, js "symbol"); (Inv.c_name, js "name"); (Inv.c_shares, js "shares");
    (Inv.c_avgCost, js "avgCost"); (Inv.c_currentPrice, js "currentPrice") ].

Definition inventoryMissingColumns (cm : Inv.Columns) : list ((Inv.Columns -> Z) * jsstring) :=
  List.filter (fun field => fst field cm =? -1) inventoryRequiredFields.

(** [formatSymbol]: quotes removed, trimmed, and cut before the first dot. *)
Definition formatSymbol (str : option jsstring) : jsstring :=
  match str with
  | Some (c :: s) =>
      let cleaned := trim (removeAll QUOTE (c :: s)) in
      let dotIndex := findIndex (fun d => char_eqb d DOT) cleaned in
      if negb (dotIndex =? -1) then take (Z.to_nat dotIndex) cleaned else cleaned
  | _ => []
  end.

(** The body of the loop for one line: [None] is [continue]. Nothing in it
    can throw. *)
Definition inventoryRow (cm : Inv.Columns) (line : jsstring) : option Inv.InventoryAsset :=
  let parts := splitOutsideQuotes line in
  let symbol := formatSymbol (at_index parts (Inv.c_symbol cm)) in
  if negb (JsString.truthy (Some symbol)) then None
  else
    Some {| Inv.symbol := symbol;
            Inv.name := cell parts (Inv.c_name cm);
            Inv.shares := cleanNumber (at_index parts (Inv.c_shares cm));
            Inv.avgCost := cleanNumber (at_index parts (Inv.c_avgCost cm));
            Inv.currentPrice := cleanNumber (at_index parts (Inv.c_currentPrice cm)) |}.

Fixpoint inventoryRows (cm : Inv.Columns) (lines : list jsstring)
    (assets : list Inv.InventoryAsset) : list Inv.InventoryAsset :=
  match lines with
  | [] => assets
  | line :: rest =>
      match inventoryRow cm line with
      | None => inventoryRows cm rest assets
      | Some asset => inventoryRows cm rest (assets ++ [asset])
      end
  end.

Definition parseStockInventoryCSV (csvText : jsstring) : Inv.Result :=
  let lines := csvLines csvText in
  if (length lines <? 2)%nat then
    {| Inv.assets := [];
       Inv.error := Some (js "CSV 檔案是空的或缺少標題列 (Header)。") |}
  else
    let headers := headersOf (default [] (lines !! 0%nat)) in
    let cm := inventoryColumnMap headers in
    let missing := inventoryMissingColumns cm in
    if (0 <? length missing)%nat then
      {| Inv.assets := [];
         Inv.error := Some (js "CSV 缺少必要欄位: " ++ join (js ", ") (List.map snd missing)) |}
    else
      {| Inv.assets := inventoryRows cm (drop 1 lines) []; Inv.error := None |}.

(** The inventory fields by the words of the format: the header keyword of
    each and the key it is reported by. *)
Definition inventoryKeywords : list (jsstring * jsstring) :=
  [ (js "股票代號", js "symbol"); (js "股票名稱", js "name");
    (js "合計庫存數量", js "shares"); (js "成本均價", js "avgCost");
    (js "現價", js "currentPrice") ].

(** An inventory export: a quoted number with a thousands separator, a
    symbol with an exchange suffix, and a line without a symbol. *)
Definition csv_inventory : jsstring :=
  js "股票代號,股票名稱,合計庫存數量,成本均價,現價" ++ [NEWLINE] ++
  js "2330.TW,台積電," ++ [QUOTE] ++ js "1,000" ++ [QUOTE] ++ js ",600,650" ++ [NEWLINE] ++
  js ",合計,,," ++ [NEWLINE] ++
  js "00878,國泰永續高股息,5000,22.5,23".

(** An inventory export whose header has no price column. *)
Definition csv_inventory_no_price : jsstring :=
  js "股票代號,股票名稱,合計庫存數量,成本均價" ++ [NEWLINE] ++
  js "2330,台積電,1000,600".

(** ** Cleaning a model answer ([services/stock.ts]) *)

(** [s.replace(/pat/g, '')] for a literal, non-empty [pat]: the matches are
    taken from left to right and do not overlap; [skip] counts the code units
    of a match that are still to be dropped. *)
Fixpoint removeSubFrom (pat : jsstring) (skip : nat) (s : jsstring) : jsstring :=
  match s with
  | [] => []
  | c :: rest =>
      match skip with
      | S k => removeSubFrom pat k rest
      | O =>
          if startsWith s pat then removeSubFrom pat (length pat - 1) rest
          else c :: removeSubFrom pat O rest
      end
  end.

Definition removeSub (pat s : jsstring) : jsstring := removeSubFrom pat 0 s.

Definition BACKTICK : char16 := 96%N.

(** The Markdown fence, three backticks. *)
Definition FENCE : jsstring := [BACKTICK; BACKTICK; BACKTICK].

Definition cleanJsonString (text : jsstring) : jsstring :=
  match text with
  | [] => js "{}"
  | _ => trim (removeSub FENCE (removeSub (FENCE ++ js "json") text))
  end.

(** ** The keys kept in [localStorage] ([services/storage.ts]) *)

(** [localStorage.setItem(key, value)] *)
Definition setItem (localStorage : Storage) (key value : jsstring) : Storage :=
  <[ key := value ]> localStorage.

Definition getApiKey (localStorage : Storage) : jsstring :=
  default [] (getItem localStorage (js "ft_api_key")).

Definition saveApiKey (localStorage : Storage) (key : jsstring) : Storage :=
  setItem localStorage (js "ft_api_key") key.

Definition getGoogleClientId (localStorage : Storage) : jsstring :=
  default [] (getItem localStorage (js "ft_google_client_id")).

Definition saveGoogleClientId (localStorage : Storage) (id : jsstring) : Storage :=
  setItem localStorage (js "ft_google_client_id") id.

(** [clearAllData]: [localStorage.clear()] *)
Definition clearAllData (localStorage : Storage) : Storage := ∅.

(** ** Enrichment by the model ([services/stock.ts]) *)

(** What a call of [ai.models.generateContent] comes to: a response, whose
    [text] may be [undefined], or a rejection. *)
Inductive AIOutcome : Type :=
| Responded (text : option jsstring)
| Rejected.

(** [getAI] of [services/stock.ts]: the client for the stored key; [None]
    stands for the error it throws when no key is stored. *)
Definition getAI (localStorage : Storage) : option jsstring :=
  let key := getApiKey localStorage in
  if negb (JsString.truthy (Some key)) then None else Some key.

Inductive AssetType : Type := CASH | STOCK | FUND | REAL_ESTATE | CRYPTO | DEBT | OTHER.

Definition isStock (ty : AssetType) : bool :=
  match ty with
  | STOCK => true
  | _ => false
  end.

(** An [Asset] with its name and its type beside the stock fields. *)
Record AssetEntry : Type := {
  asset_name : jsstring;
  asset_type : AssetType;
  asset_stock : Asset
}.

(** The fields an enrichment returns, a [Partial<Asset>]. *)
Record AssetPatch : Type := {
  patch_name : option jsstring;
  patch_currentPrice : option number;
  patch_dividendPerShare : option number;
  patch_dividendFrequency : option jsstring;
  patch_exDate : option jsstring
}.

(** The longest prefix of characters of a class, and what follows it. *)
Fixpoint spanWhile (f : char16 -> bool) (s : jsstring) : jsstring * jsstring :=
  match s with
  | c :: rest =>
      if f c then let '(taken, others) := spanWhile f rest in (c :: taken, others)
      else ([], s)
  | [] => ([], [])
  end.

(** A capture group of one or more characters of a class. *)
Definition captureSome (f : char16 -> bool) (s : jsstring) : option jsstring :=
  match fst (spanWhile f s) with
  | [] => None
  | taken => Some taken
  end.

(** The capture group of a date, four digits, two and two with hyphens
    between. *)
Definition captureIsoDate (s : jsstring) : option jsstring :=
  match s with
  | y1 :: y2 :: y3 :: y4 :: h1 :: m1 :: m2 :: h2 :: d1 :: d2 :: _ =>
      if isDigit y1 && isDigit y2 && isDigit y3 && isDigit y4 && char_eqb h1 HYPHEN
         && isDigit m1 && isDigit m2 && char_eqb h2 HYPHEN && isDigit d1 && isDigit d2
      then Some [y1; y2; y3; y4; h1; m1; m2; h2; d1; d2]
      else None
  | _ => None
  end.

(** [s.match(re)] for an expression that is a literal followed by one
    capture group: the group of the leftmost place where both match. *)
Fixpoint matchAfter (literal : jsstring) (capture : jsstring -> option jsstring)
    (s : jsstring) : option jsstring :=
  match (if startsWith s literal then capture (drop (length literal) s) else None) with
  | Some group => Some group
  | None =>
      match s with
      | [] => None
      | _ :: rest => matchAfter literal capture rest
      end
  end.

(** A string or [undefined] in a template literal. *)
Definition interpolate (s : option jsstring) : jsstring := default (js "undefined") s.

Definition basicInfoPrompt (stock : AssetEntry) : jsstring :=
  js "Search " ++ [QUOTE] ++ js "Taiwan stock " ++ interpolate (symbol (asset_stock stock)) ++
  js " price Yahoo Finance TW" ++ [QUOTE] ++
  js ". Find the current price and name. Return the NAME in Traditional Chinese (繁體中文). Do NOT use English. Return a single line of plain text in this exact format: PRICE:value, NAME:value. Example: PRICE:980, NAME:台積電".

Definition dividendInfoPrompt (stock : AssetEntry) : jsstring :=
  js "Search " ++ [QUOTE] ++ js "Stock " ++ interpolate (symbol (asset_stock stock)) ++
  js " dividend history HiStock" ++ [QUOTE] ++ js " or " ++ [QUOTE] ++
  js "Yahoo Finance TW" ++ [QUOTE] ++
  js ". Find the Sum of Cash Dividends (現金股利) paid in the trailing 12 months. Ignore Stock Dividends (股票股利). Return a single line of plain text in this exact format: FREQUENCY:value, TTM_DPS:value, EX_DATE:value.".

(** [enrichStockBasicInfo]; [generateContent] answers the prompt. A missing
    key and a rejected call are caught, and give [null]. *)
Definition enrichStockBasicInfo (localStorage : Storage)
    (generateContent : jsstring -> AIOutcome) (stock : AssetEntry) : option AssetPatch :=
  match getAI localStorage with
  | None => None
  | Some _ =>
      match generateContent (basicInfoPrompt stock) with
      | Rejected => None
      | Responded response_text =>
          let text := default [] response_text in
          let priceMatch :=
            matchAfter (js "PRICE:")
              (captureSome (fun c => isDigit c || char_eqb c DOT || char_eqb c COMMA)) text in
          let nameMatch :=
            matchAfter (js "NAME:") (captureSome (fun c => negb (char_eqb c COMMA))) text in
          let priceStr :=
            match priceMatch with
            | Some group => removeAll COMMA group
            | None => js "0"
            end in
          let price := parseFloat priceStr in
          let name :=
            match nameMatch with
            | Some group => Some (trim group)
            | None =>
                if JsString.truthy (Some (asset_name stock)) then Some (asset_name stock)
                else symbol (asset_stock stock)
            end in
          if gt price zero then
            Some {| patch_name := name; patch_currentPrice := Some price;
                    patch_dividendPerShare := None; patch_dividendFrequency := None;
                    patch_exDate := None |}
          else None
      end
  end.

(** [enrichStockDividendInfo] *)
Definition enrichStockDividendInfo (localStorage : Storage)
    (generateContent : jsstring -> AIOutcome) (stock : AssetEntry) : option AssetPatch :=
  match getAI localStorage with
  | None => None
  | Some _ =>
      match generateContent (dividendInfoPrompt stock) with
      | Rejected => None
      | Responded response_text =>
          let text := default [] response_text in
          let freqMatch :=
            matchAfter (js "FREQUENCY:") (captureSome (fun c => negb (char_eqb c COMMA))) text in
          let dpsMatch :=
            matchAfter (js "TTM_DPS:") (captureSome (fun c => isDigit c || char_eqb c DOT)) text in
          let exDateMatch := matchAfter (js "EX_DATE:") captureIsoDate text in
          let dividendFrequency := option_map trim freqMatch in
          let dividendPerShare := option_map parseFloat dpsMatch in
          let exDate := option_map trim exDateMatch in
          match dividendPerShare with
          | Some dps =>
              let price := currentPrice (asset_stock stock) in
              if from_option JsNumber.truthy false price && gt (Number price) zero
                 && gt (div dps (Number price)) (of_decimal false 20 (-2))
              then
                Some {| patch_name := None; patch_currentPrice := None;
                        patch_dividendPerShare := Some zero;
                        patch_dividendFrequency := Some (js "N/A");
                        patch_exDate := None |}
              else
                Some {| patch_name := None; patch_currentPrice := None;
                        patch_dividendPerShare := Some dps;
                        patch_dividendFrequency := dividendFrequency;
                        patch_exDate := exDate |}
          | None => None
          end
      end
  end.

(** The dividend per share that an answer states: the number after
    [TTM_DPS:], when the answer has one. *)
Definition answeredDividend (text : jsstring) : option number :=
  option_map parseFloat
    (matchAfter (js "TTM_DPS:") (captureSome (fun c => isDigit c || char_eqb c DOT)) text).

(** The frequency and the ex-dividend date that an answer states. *)
Definition answeredFrequency (text : jsstring) : option jsstring :=
  option_map trim
    (matchAfter (js "FREQUENCY:") (captureSome (fun c => negb (char_eqb c COMMA))) text).

Definition answeredExDate (text : jsstring) : option jsstring :=
  option_map trim (matchAfter (js "EX_DATE:") captureIsoDate text).

(** A stored key, a model that answers every prompt with one text, and a
    position of 1000 shares of 2330 under its name. *)
Definition storage_with_key : Storage := {[ js "ft_api_key" := js "AIza-key" ]}.

Definition answering (text : jsstring) (prompt : jsstring) : AIOutcome :=
  Responded (Some text).

Definition named_2330 : AssetEntry :=
  {| asset_name := js "台積電"; asset_type := STOCK; asset_stock := stock_2330 |}.

(** The number of backticks a string starts with. *)
Fixpoint leadingTicks (s : jsstring) : nat :=
  match s with
  | c :: rest => if char_eqb c BACKTICK then S (leadingTicks rest) else O
  | [] => O
  end.

(** A number that is finite: neither [NaN] nor an infinity. *)
Definition isFinite (x : number) : bool :=
  match x with
  | S754_finite _ _ _ | S754_zero _ => true
  | _ => false
  end.

(** A held position without a current price. *)
Definition stock_unpriced : Asset :=
  {| symbol := Some (js "2330"); shares := Some (of_Z 1000);
     avgCost := Some (of_Z 600); currentPrice := None; isEtf := None |}.

(** ** The daily stock snapshot ([hooks/useDailySnapshot.ts]) *)

Record Position : Type := {
  position_symbol : jsstring;
  position_marketValue : number
}.

Record StockSnapshot : Type := {
  snapshot_date : jsstring;
  totalMarketValue : number;
  totalUnrealizedPL : number;
  positions : list Position
}.

(** [a === b] on strings. *)
Fixpoint stringEq (a b : jsstring) : bool :=
  match a, b with
  | [], [] => true
  | x :: a', y :: b' => char_eqb x y && stringEq a' b'
  | _, _ => false
  end.

(** The running totals of the loop over the stocks. *)
Record SnapshotTotals : Type := {
  sum_marketValue : number;
  sum_unrealizedPL : number;
  sum_positions : list Position
}.

(** The body of [stocks.forEach]: a stock without a symbol (or with an
    empty one) is passed over. *)
Definition addStock (localStorage : Storage) (currentTransactions : list Transaction)
    (acc : SnapshotTotals) (stock : AssetEntry) : SnapshotTotals :=
  match symbol (asset_stock stock) with
  | Some (c :: s) =>
      let performance :=
        calculateStockPerformance localStorage (asset_stock stock) currentTransactions in
      {| sum_marketValue := add (sum_marketValue acc) (marketValue performance);
         sum_unrealizedPL := add (sum_unrealizedPL acc) (netProfit performance);
         sum_positions :=
           sum_positions acc ++
           [{| position_symbol := c :: s;
               position_marketValue := marketValue performance |}] |}
  | _ => acc
  end.

(** [xs.shift()] when the list is longer than 365. *)
Definition capHistory {A : Type} (history : list A) : list A :=
  if (365 <? length history)%nat then drop 1 history else history.

(** [takeStockSnapshot]: [today] is the day the clock gives, [history] is
    what [storage.getStockHistory()] returns, and the result is the history
    that is saved and set. *)
Definition takeStockSnapshot (localStorage : Storage) (today : jsstring)
    (history : list StockSnapshot) (currentAssets : list AssetEntry)
    (currentTransactions : list Transaction) : list StockSnapshot :=
  let stocks := List.filter (fun a => isStock (asset_type a)) currentAssets in
  let snapshot :=
    if (length stocks =? 0)%nat then
      {| snapshot_date := today; totalMarketValue := zero; totalUnrealizedPL := zero;
         positions := [] |}
    else
      let totals :=
        fold_left (addStock localStorage currentTransactions) stocks
          {| sum_marketValue := zero; sum_unrealizedPL := zero; sum_positions := [] |} in
      {| snapshot_date := today; totalMarketValue := sum_marketValue totals;
         totalUnrealizedPL := sum_unrealizedPL totals;
         positions := sum_positions totals |} in
  let filteredHistory :=
    List.filter (fun h => negb (stringEq (snapshot_date h) today)) history in
  capHistory (filteredHistory ++ [snapshot]).

(** The entries of a history that are not of today. *)
Definition otherDays (today : jsstring) (history : list StockSnapshot) : list StockSnapshot :=
  List.filter (fun h => negb (stringEq (snapshot_date h) today)) history.

(** The positions that a list of assets gives: the stocks with a non-empty
    symbol, each with the market value the calculator gives it. *)
Definition positionsOf (localStorage : Storage) (currentTransactions : list Transaction)
    (currentAssets : list AssetEntry) : list Position :=
  omap (fun a =>
          if isStock (asset_type a) then
            match symbol (asset_stock a) with
            | Some (c :: s) =>
                Some {| position_symbol := c :: s;
                        position_marketValue :=
                          marketValue (calculateStockPerformance localStorage
                                         (asset_stock a) currentTransactions) |}
            | _ => None
            end
          else None)
       currentAssets.

(** A portfolio of cash, a stock and a stock without a symbol; and a
    history with a snapshot of an earlier day. *)
Definition portfolio_example : list AssetEntry :=
  [ {| asset_name := js "活存"; asset_type := CASH; asset_stock := stock_unnamed |};
    named_2330;
    {| asset_name := js "未命名"; asset_type := STOCK; asset_stock := stock_unnamed |} ].

Definition history_example : list StockSnapshot :=
  [ {| snapshot_date := js "2024-01-14"; totalMarketValue := of_Z 640000;
       totalUnrealizedPL := of_Z 37000; positions := [] |} ].
(** ** The number model on examples *)

(** The decimal conversion agrees with the machine's on the constants of the
    program and on boundary cases. *)
Example of_decimal_machine :
  Prim2SF 0.001425%float = of_decimal false 1425 (-6) /\
  Prim2SF 0.28%float = of_decimal false 28 (-2) /\
  Prim2SF 0.003%float = of_decimal false 3 (-3) /\
  Prim2SF 0.001%float = of_decimal false 1 (-3) /\
  Prim2SF 239.4%float = of_decimal false 2394 (-1) /\
  Prim2SF 1e22%float = of_decimal false 1 22 /\
  Prim2SF 1e23%float = of_decimal false 1 23 /\
  Prim2SF 5e-324%float = of_decimal false 5 (-324) /\
  Prim2SF 2e-324%float = of_decimal false 2 (-324) /\
  Prim2SF 1.7976931348623157e308%float = of_decimal false 17976931348623157 292 /\
  Prim2SF 2e308%float = of_decimal false 2 308 /\
  Prim2SF 600020%float = of_Z 600020.
Proof. vm_compute. repeat split. Qed.

Example Math_floor_examples :
  Math_floor (of_decimal false 2394 (-1)) = of_Z 239 /\
  Math_floor (of_decimal true 5 (-1)) = of_Z (-1) /\
  Math_floor (of_decimal false 5 (-1)) = zero /\
  Math_floor (of_decimal true 25 (-1)) = of_Z (-3) /\
  Math_floor (of_Z 7) = of_Z 7 /\
  Math_floor (of_decimal false 1 300) = of_decimal false 1 300 /\
  Math_floor (S754_zero true) = S754_zero true /\
  Math_floor NaN = NaN.
Proof. vm_compute. repeat split. Qed.

Example parseFloat_examples :
  parseFloat (js "0.28") = Prim2SF 0.28%float /\
  parseFloat (js "  -600020") = Prim2SF (-600020)%float /\
  parseFloat (js "1.5e3abc") = Prim2SF 1500%float /\
  parseFloat (js "2.5E-1") = Prim2SF 0.25%float /\
  parseFloat (js "5.") = Prim2SF 5%float /\
  parseFloat (js ".5") = Prim2SF 0.5%float /\
  parseFloat (js "7e") = Prim2SF 7%float /\
  parseFloat (js "-0") = S754_zero true /\
  parseFloat (js "-Infinity") = S754_infinity true /\
  parseFloat (js "abc") = NaN /\
  parseFloat (js ".") = NaN /\
  parseFloat (js "") = NaN.
Proof. vm_compute. repeat split. Qed.

(** ** Facts about numbers *)

Section NumberFacts.

Lemma SFcompare_antisym (x y : number) :
  SFcompare y x = option_map CompOpp (SFcompare x y).
Proof.
  destruct x as [sx|sx| |sx mx ex], y as [sy|sy| |sy my ey]; simpl;
    try reflexivity; try (destruct sx; reflexivity);
    try (destruct sy; reflexivity);
    try (destruct sx, sy; reflexivity).
  destruct sx, sy; simpl; try reflexivity;
    rewrite (Z.compare_antisym ex ey);
    destruct (ex ?= ey); simpl; try reflexivity;
    rewrite (Pos.compare_cont_antisym mx my Eq); simpl;
    try rewrite CompOpp_involutive; reflexivity.
Qed.

Lemma SFcompare_nan (x y : number) :
  SFcompare x y = None -> isNaN x = true \/ isNaN y = true.
Proof.
  destruct x as [sx|sx| |sx mx ex], y as [sy|sy| |sy my ey]; simpl;
    intros H; try discriminate H; auto.
Qed.

(** What is not below a number that is not [NaN] is at least it. *)
Lemma not_lt_le (x y : number) :
  isNaN x = false -> isNaN y = false -> lt x y = false -> le y x = true.
Proof.
  intros Hx Hy. unfold lt, le, SFltb, SFleb.
  rewrite (SFcompare_antisym x y).
  destruct (SFcompare x y) as [[ | | ]|] eqn:E; simpl; try easy.
  destruct (SFcompare_nan _ _ E); congruence.
Qed.

Lemma of_small_pos_finite (s : bool) (p : positive) :
  isNaN (of_small_pos s p) = false.
Proof.
  unfold of_small_pos.
  destruct (shl_align p 0 (Z.pos (digits2_pos p) - prec)); reflexivity.
Qed.

(** [Math.floor] gives [NaN] on [NaN] only. *)
Lemma Math_floor_isNaN (x : number) : isNaN (Math_floor x) = isNaN x.
Proof.
  destruct x as [s|s| |s m e]; simpl; try reflexivity.
  destruct (0 <=? e); [reflexivity|].
  destruct (if s && _ then _ else _);
    try reflexivity; apply of_small_pos_finite.
Qed.

(** The coercion [Number(v) || 0] gives neither [NaN] nor [-0]. *)
Lemma orZero_strictEq_zero (x : number) :
  strictEq (orZero x) zero = true <-> orZero x = zero.
Proof.
  destruct x as [s|s| |s m e]; simpl; try (split; [reflexivity|reflexivity]);
    destruct s; split; intros H; try discriminate H.
Qed.

End NumberFacts.

(** ** Facts about the calculator *)

Section Calculator.

Variable localStorage : Storage.
Variable stock : Asset.
Variable transactions : list Transaction.

Let result := calculateStockPerformance localStorage stock transactions.

(** The conditional of [calculateFee] is [Math.max] with the minimum fee. *)
Lemma calculateFee_max (sh d price : number) :
  calculateFee sh d price = Math_max (Math_floor (feeProduct sh d price)) minFee.
Proof.
  unfold calculateFee, Math_max. fold (feeProduct sh d price).
  set (f := Math_floor _).
  destruct (isNaN f) eqn:Hn; simpl.
  - destruct f; try discriminate Hn. reflexivity.
  - destruct (lt f minFee) eqn:Hlt; [reflexivity|].
    destruct (lt minFee f) eqn:Hgt; [reflexivity|].
    destruct f as [[|]| | |]; try reflexivity; discriminate Hlt.
Qed.

Lemma calculateFee_ge (sh d price : number) :
  isNaN (feeProduct sh d price) = false ->
  le minFee (calculateFee sh d price) = true.
Proof.
  intros Hn. unfold calculateFee. fold (feeProduct sh d price).
  destruct (lt (Math_floor (feeProduct sh d price)) minFee) eqn:Hlt.
  - reflexivity.
  - apply not_lt_le; [|reflexivity|exact Hlt].
    rewrite Math_floor_isNaN. exact Hn.
Qed.

Lemma calculateFee_nan (sh d price : number) :
  isNaN (feeProduct sh d price) = true -> calculateFee sh d price = NaN.
Proof.
  intros Hn. unfold calculateFee. fold (feeProduct sh d price).
  destruct (feeProduct sh d price); try discriminate Hn. reflexivity.
Qed.

(** Past the guard the result is made of the fee, the tax and the sums. *)
Lemma performance_held :
  strictEq (coercedShares stock) zero = false ->
  strictEq (coercedAvgCost stock) zero = false ->
  buyFee result =
    calculateFee (coercedShares stock) (getFeeDiscount localStorage)
      (coercedAvgCost stock) /\
  sellFee result =
    calculateFee (coercedShares stock) (getFeeDiscount localStorage)
      (coercedCurrentPrice stock) /\
  marketValue result = mul (coercedCurrentPrice stock) (coercedShares stock) /\
  tax result =
    Math_floor (mul (marketValue result)
      (if match isEtf stock with
          | Some b => b
          | None => from_option (fun sym => startsWith sym (js "00")) false
                      (symbol stock)
          end
       then of_decimal false 1 (-3) else of_decimal false 3 (-3))).
Proof.
  intros Hs Ha. unfold result, calculateStockPerformance.
  fold (coercedShares stock) (coercedAvgCost stock) (coercedCurrentPrice stock).
  rewrite Hs, Ha. simpl.
  repeat split.
Qed.

Lemma gt_zero_not_eq (x : number) : gt x zero = true -> strictEq x zero = false.
Proof.
  unfold gt, strictEq, SFltb, SFeqb. rewrite (SFcompare_antisym zero x).
  destruct (SFcompare zero x) as [[ | | ]|]; simpl; congruence.
Qed.

End Calculator.

(** ** The claims about the calculator *)

(** C1, as the code has it: for a position with coerced shares > 0 and
    coerced average cost > 0, the buy fee and the sell fee are
    [Math.max(Math.floor(price * shares * 0.001425 * feeDiscount), 20)], at
    the average cost and at the current price; what is compared with the
    minimum is the floored product; and each fee is at least 20 whenever its
    product is not [NaN]. *)
Theorem fees_are_floored_with_minimum (localStorage : Storage) (stock : Asset)
    (transactions : list Transaction) :
  gt (coercedShares stock) zero = true ->
  gt (coercedAvgCost stock) zero = true ->
  let r := calculateStockPerformance localStorage stock transactions in
  let d := getFeeDiscount localStorage in
  let pb := mul (mul (mul (coercedAvgCost stock) (coercedShares stock)) feeRate) d in
  let ps := mul (mul (mul (coercedCurrentPrice stock) (coercedShares stock)) feeRate) d in
  buyFee r = Math_max (Math_floor pb) (of_Z 20) /\
  sellFee r = Math_max (Math_floor ps) (of_Z 20) /\
  (isNaN pb = false -> le (of_Z 20) (buyFee r) = true) /\
  (isNaN ps = false -> le (of_Z 20) (sellFee r) = true).
Proof.
  intros Hs Ha r d pb ps.
  destruct (performance_held localStorage stock transactions
              (gt_zero_not_eq _ Hs) (gt_zero_not_eq _ Ha)) as (Hb & Hl & _).
  fold r in Hb, Hl. rewrite Hb, Hl.
  repeat split.
  - apply calculateFee_max.
  - apply calculateFee_max.
  - apply calculateFee_ge.
  - apply calculateFee_ge.
Qed.

Lemma fees_are_floored_with_minimum_witness :
  le (of_Z 20) (buyFee (calculateStockPerformance ∅ stock_2330 [])) = true /\
  le (of_Z 20) (sellFee (calculateStockPerformance ∅ stock_2330 [])) = true.
Proof.
  destruct (fees_are_floored_with_minimum ∅ stock_2330 [] eq_refl eq_refl)
    as (_ & _ & Hb & Hl).
  split; [apply Hb | apply Hl]; reflexivity.
Defined.

(** C1 as stated fails: with a stored fee discount that is not a number,
    both fees of a held position are [NaN], which is not at least 20. *)
Lemma fee_minimum_fails_on_NaN_discount :
  let r := calculateStockPerformance (storage_of (js "abc")) stock_2330 [] in
  gt (coercedShares stock_2330) zero = true /\
  gt (coercedAvgCost stock_2330) zero = true /\
  buyFee r = NaN /\ sellFee r = NaN /\
  le (of_Z 20) (buyFee r) = false /\
  le (of_Z 20) (sellFee r) = false.
Proof. vm_compute. repeat split. Qed.

(** C2, as the code has it: when the coerced shares or the coerced average
    cost are 0, every field of the result is 0 except [totalDividends], which
    is the sum of the amounts of the dividends whose item or note contains
    the symbol when the position has a non-empty symbol, and 0 when it has
    none or an empty one. *)
Theorem zero_position_short_circuits (localStorage : Storage) (stock : Asset)
    (transactions : list Transaction) :
  coercedShares stock = zero \/ coercedAvgCost stock = zero ->
  calculateStockPerformance localStorage stock transactions =
    {| totalCost := zero; marketValue := zero; estimatedReturn := zero;
       netProfit := zero; roi := zero; buyFee := zero; sellFee := zero;
       tax := zero;
       totalDividends :=
         match symbol stock with
         | Some (c :: s) => dividendSum (c :: s) transactions
         | _ => zero
         end |}.
Proof.
  intros H. unfold calculateStockPerformance.
  fold (coercedShares stock) (coercedAvgCost stock).
  assert (G : strictEq (coercedShares stock) zero
              || strictEq (coercedAvgCost stock) zero = true).
  { destruct H as [H|H]; rewrite H; [reflexivity|apply orb_true_r]. }
  rewrite G. f_equal.
  destruct (symbol stock) as [[|c s]|]; try reflexivity.
  destruct transactions; reflexivity.
Qed.

Lemma zero_position_short_circuits_witness :
  totalDividends
    (calculateStockPerformance ∅
       {| symbol := Some (js "2330"); shares := None; avgCost := Some (of_Z 600);
          currentPrice := Some (of_Z 650); isEtf := None |}
       [dividend_100]) = of_Z 100.
Proof.
  rewrite zero_position_short_circuits; [reflexivity|].
  left. reflexivity.
Defined.

(** C2 as stated fails: the empty symbol is contained in every item, yet a
    position whose symbol is empty gets no dividends. *)
Lemma empty_symbol_gets_no_dividends :
  coercedShares stock_unnamed = zero /\
  symbol stock_unnamed = Some [] /\
  attributed [] dividend_100 = true /\
  dividendSum [] [dividend_100] = of_Z 100 /\
  totalDividends (calculateStockPerformance ∅ stock_unnamed [dividend_100]) = zero /\
  totalDividends (calculateStockPerformance ∅ stock_unnamed [dividend_100])
    <> dividendSum [] [dividend_100].
Proof. vm_compute. repeat split. discriminate. Qed.

(** C3: 1000 shares bought at 600 and priced at 650, not an ETF, fee discount
    0.28 (stored, or the default of an empty storage), no transactions: buy
    fee 239, total cost 600239, sell fee 259, tax 1950, estimated return
    647791, net profit 47552, ROI 47552 / 600239 * 100, between 7.92 and
    7.93. *)
Theorem worked_example (sym : option jsstring) :
  let stock :=
    {| symbol := sym; shares := Some (of_Z 1000); avgCost := Some (of_Z 600);
       currentPrice := Some (of_Z 650); isEtf := Some false |} in
  let expected :=
    {| totalCost := of_Z 600239; marketValue := of_Z 650000;
       estimatedReturn := of_Z 647791; netProfit := of_Z 47552;
       roi := mul (div (of_Z 47552) (of_Z 600239)) (of_Z 100);
       buyFee := of_Z 239; sellFee := of_Z 259; tax := of_Z 1950;
       totalDividends := zero |} in
  calculateStockPerformance ∅ stock [] = expected /\
  calculateStockPerformance (storage_of (js "0.28")) stock [] = expected /\
  getFeeDiscount ∅ = of_decimal false 28 (-2) /\
  getFeeDiscount (storage_of (js "0.28")) = of_decimal false 28 (-2) /\
  lt (of_decimal false 792 (-2)) (roi expected) = true /\
  lt (roi expected) (of_decimal false 793 (-2)) = true.
Proof.
  destruct sym as [[|c sym]|]; vm_compute; repeat split.
Qed.

(** C4: for a position with coerced shares > 0 and coerced average cost > 0
    the tax is [Math.floor(marketValue * r)], with [r] the literal 0.001 for
    a position classified as an ETF and the literal 0.003 for any other. *)
Theorem tax_rate_is_etf_or_equity (localStorage : Storage) (stock : Asset)
    (transactions : list Transaction) :
  gt (coercedShares stock) zero = true ->
  gt (coercedAvgCost stock) zero = true ->
  let r := calculateStockPerformance localStorage stock transactions in
  marketValue r = mul (coercedCurrentPrice stock) (coercedShares stock) /\
  (classifiedEtf stock ->
   tax r = Math_floor (mul (marketValue r) (of_decimal false 1 (-3)))) /\
  (~ classifiedEtf stock ->
   tax r = Math_floor (mul (marketValue r) (of_decimal false 3 (-3)))) /\
  (tax r = Math_floor (mul (marketValue r) (of_decimal false 1 (-3))) \/
   tax r = Math_floor (mul (marketValue r) (of_decimal false 3 (-3)))).
Proof.
  intros Hs Ha r.
  destruct (performance_held localStorage stock transactions
              (gt_zero_not_eq _ Hs) (gt_zero_not_eq _ Ha)) as (_ & _ & Hm & Ht).
  fold r in Hm, Ht. split; [exact Hm|].
  assert (Hrate : tax r = Math_floor (mul (marketValue r) (of_decimal false 1 (-3))) \/
                  tax r = Math_floor (mul (marketValue r) (of_decimal false 3 (-3)))).
  { rewrite Ht. destruct (match isEtf stock with Some b => b | None => _ end);
      [left|right]; reflexivity. }
  cut ((classifiedEtf stock ->
        tax r = Math_floor (mul (marketValue r) (of_decimal false 1 (-3)))) /\
       (~ classifiedEtf stock ->
        tax r = Math_floor (mul (marketValue r) (of_decimal false 3 (-3))))).
  { intros [H1 H2]. repeat split; assumption. }
  clear Hrate. rewrite Ht. unfold classifiedEtf.
  destruct (isEtf stock) as [[|]|].
  - split; [reflexivity|]. intros H. exfalso. apply H. left. reflexivity.
  - split; [|reflexivity]. intros [H|[H _]]; discriminate H.
  - destruct (symbol stock) as [sym|]; cbn [from_option].
    + destruct (startsWith sym (js "00")) eqn:E.
      * split; [reflexivity|]. intros H. exfalso. apply H. right.
        split; [reflexivity|]. exists sym. split; [reflexivity|exact E].
      * split; [|reflexivity]. intros [H|[_ (sym' & H & E')]]; [discriminate H|].
        injection H as <-. congruence.
    + split; [|reflexivity].
      intros [H|[_ (sym' & H & _)]]; discriminate H.
Qed.

Lemma tax_rate_is_etf_or_equity_witness :
  tax (calculateStockPerformance ∅ stock_2330 []) =
  Math_floor (mul (of_Z 650000) (of_decimal false 3 (-3))).
Proof.
  destruct (tax_rate_is_etf_or_equity ∅ stock_2330 [] eq_refl eq_refl)
    as (Hm & _ & Ht & _).
  rewrite Ht.
  - rewrite Hm. reflexivity.
  - intros [H|[H _]]; discriminate H.
Defined.

(** C5, as the code has it: the calculator takes the position and the
    transactions; the multiplier of 0.001425 in both fees is the stored fee
    discount, the [parseFloat] of the string kept in [localStorage] under
    [ft_stock_fee_discount] when a non-empty one is kept, and 0.28
    otherwise. *)
Theorem fee_discount_is_read_from_storage (localStorage : Storage) (stock : Asset)
    (transactions : list Transaction) :
  strictEq (coercedShares stock) zero = false ->
  strictEq (coercedAvgCost stock) zero = false ->
  let r := calculateStockPerformance localStorage stock transactions in
  let d :=
    match localStorage !! js "ft_stock_fee_discount" with
    | Some (c :: s) => parseFloat (c :: s)
    | _ => of_decimal false 28 (-2)
    end in
  let fee price :=
    Math_max
      (Math_floor
         (mul (mul (mul price (coercedShares stock)) (of_decimal false 1425 (-6))) d))
      (of_Z 20) in
  buyFee r = fee (coercedAvgCost stock) /\
  sellFee r = fee (coercedCurrentPrice stock).
Proof.
  intros Hs Ha r d fee.
  destruct (performance_held localStorage stock transactions Hs Ha) as (Hb & Hl & _).
  fold r in Hb, Hl. rewrite Hb, Hl, !calculateFee_max.
  assert (Hd : getFeeDiscount localStorage = d).
  { unfold getFeeDiscount, getItem, d, STORAGE_KEYS.FEE_DISCOUNT.
    destruct (localStorage !! js "ft_stock_fee_discount") as [[|c s]|]; reflexivity. }
  rewrite Hd. split; reflexivity.
Qed.

Lemma fee_discount_is_read_from_storage_witness :
  buyFee (calculateStockPerformance (storage_of (js "0.5")) stock_2330 []) = of_Z 427 /\
  sellFee (calculateStockPerformance (storage_of (js "0.5")) stock_2330 []) = of_Z 463.
Proof.
  destruct (fee_discount_is_read_from_storage (storage_of (js "0.5")) stock_2330 []
              eq_refl eq_refl) as (Hb & Hl).
  rewrite Hb, Hl. split; reflexivity.
Defined.

(** C5 as stated fails: called with the position and the transactions alone,
    the calculator does not use 0.28 when another discount is stored. *)
Lemma stored_discount_overrides_default :
  let r := calculateStockPerformance (storage_of (js "0.5")) stock_2330 [] in
  let fee028 price := calculateFee (coercedShares stock_2330) (of_decimal false 28 (-2)) price in
  buyFee r = of_Z 427 /\ fee028 (coercedAvgCost stock_2330) = of_Z 239 /\
  sellFee r = of_Z 463 /\ fee028 (coercedCurrentPrice stock_2330) = of_Z 259 /\
  buyFee r <> fee028 (coercedAvgCost stock_2330) /\
  sellFee r <> fee028 (coercedCurrentPrice stock_2330).
Proof. vm_compute. repeat split; discriminate. Qed.

(** ** Facts about strings *)

Section StringFacts.

Lemma char_eqb_refl (c : char16) : char_eqb c c = true.
Proof. apply N.eqb_refl. Qed.

Lemma startsWith_app (p s : jsstring) : startsWith (p ++ s) p = true.
Proof.
  induction p as [|c p IH]; simpl.
  - reflexivity.
  - rewrite char_eqb_refl. exact IH.
Qed.

Lemma includes_app_l (p s : jsstring) : includes (p ++ s) p = true.
Proof.
  destruct p as [|c p].
  - destruct s; reflexivity.
  - simpl app. change (startsWith ((c :: p) ++ s) (c :: p)
            || includes (p ++ s) (c :: p) = true).
    rewrite startsWith_app. reflexivity.
Qed.

Lemma includes_app_r (a b p : jsstring) :
  includes b p = true -> includes (a ++ b) p = true.
Proof.
  intros H. induction a as [|c a IH].
  - exact H.
  - change (startsWith (c :: a ++ b) p || includes (a ++ b) p = true).
    rewrite IH. apply orb_true_r.
Qed.

(** A joined list contains each of its elements. *)
Lemma includes_join (sep x : jsstring) (xs : list jsstring) :
  In x xs -> includes (join sep xs) x = true.
Proof.
  induction xs as [|y ys IH]; intros Hin; [destruct Hin|].
  destruct Hin as [->|Hin].
  - destruct ys as [|z zs].
    + simpl. rewrite <- (app_nil_r x) at 1. apply includes_app_l.
    + change (includes (x ++ sep ++ join sep (z :: zs)) x = true).
      apply includes_app_l.
  - destruct ys as [|z zs]; [destruct Hin|].
    change (includes (y ++ sep ++ join sep (z :: zs)) x = true).
    apply includes_app_r, includes_app_r, IH, Hin.
Qed.

(** Replacing every slash leaves no slash. *)
Lemma replaceAll_slash (s : jsstring) : ~ In SLASH (replaceAll SLASH HYPHEN s).
Proof.
  unfold replaceAll. rewrite in_map_iff. intros (d & Hd & _).
  destruct (char_eqb d SLASH) eqn:E.
  - discriminate Hd.
  - subst d. rewrite char_eqb_refl in E. discriminate E.
Qed.

End StringFacts.

(** ** Facts about the header *)

Section HeaderFacts.

Lemma findIndexFrom_range {A : Type} (f : A -> bool) (xs : list A) (i : Z) :
  0 <= i ->
  (existsb f xs = false /\ findIndexFrom f i xs = -1) \/
  (existsb f xs = true /\ i <= findIndexFrom f i xs).
Proof.
  revert i. induction xs as [|x xs IH]; intros i Hi; simpl.
  - left. split; reflexivity.
  - destruct (f x); simpl.
    + right. split; [reflexivity|lia].
    + destruct (IH (i + 1) ltac:(lia)) as [[He Hf]|[He Hf]].
      * left. split; assumption.
      * right. split; [assumption|lia].
Qed.

Lemma findColumnIndex_missing (headers keywords : list jsstring) :
  (findColumnIndex headers keywords =? -1) = negb (hasColumn headers keywords).
Proof.
  unfold hasColumn. induction keywords as [|k ks IH]; simpl.
  - reflexivity.
  - unfold findIndex.
    destruct (findIndexFrom_range (fun header => includes header k) headers 0
                ltac:(lia)) as [[He Hf]|[He Hf]]; rewrite He; simpl.
    + rewrite Hf. simpl. exact IH.
    + destruct (findIndexFrom _ 0 headers =? -1) eqn:E; simpl.
      * apply Z.eqb_eq in E. lia.
      * rewrite E. reflexivity.
Qed.

(** The names of the missing columns are those of the lacking fields. *)
Lemma missing_names (headers : list jsstring) :
  List.map snd (missingColumns (columnMap headers)) =
  List.map snd (lackingFields headers).
Proof.
  unfold missingColumns, lackingFields, requiredFields, requiredVariants, columnMap.
  cbn [List.filter fst snd ColumnMap.date ColumnMap.symbol ColumnMap.side
       ColumnMap.shares ColumnMap.price ColumnMap.amount].
  rewrite !findColumnIndex_missing.
  repeat match goal with
         | |- context [negb (hasColumn ?h ?k)] => destruct (negb (hasColumn h k))
         end; reflexivity.
Qed.

End HeaderFacts.

(** ** Facts about the parser *)

Section ParserFacts.

Variable randomUUID : nat -> jsstring.

Lemma parse_short (csvText : jsstring) :
  (length (csvLines csvText) < 2)%nat ->
  parseStockTransactionCSV randomUUID csvText =
    {| transactions := [];
       error := Some (js "CSV 檔案是空的或缺少標題列 (Header)。") |}.
Proof.
  intros H. unfold parseStockTransactionCSV.
  destruct (Nat.ltb_spec (length (csvLines csvText)) 2) as [_|H']; [reflexivity|lia].
Qed.

Lemma parse_lacking (csvText : jsstring) :
  (2 <= length (csvLines csvText))%nat ->
  lackingFields (headersOf (default [] (csvLines csvText !! 0%nat))) <> [] ->
  parseStockTransactionCSV randomUUID csvText =
    {| transactions := [];
       error := Some (js "CSV 檔案缺少必要的欄位，請檢查是否包含：" ++
                      join (js "、")
                        (List.map snd
                           (lackingFields
                              (headersOf (default [] (csvLines csvText !! 0%nat)))))) |}.
Proof.
  intros Hlen Hlack. unfold parseStockTransactionCSV.
  destruct (Nat.ltb_spec (length (csvLines csvText)) 2) as [H'|_]; [lia|].
  set (headers := headersOf _) in *.
  destruct (Nat.ltb_spec 0 (length (missingColumns (columnMap headers)))) as [_|H0].
  - rewrite missing_names. reflexivity.
  - exfalso. apply Hlack.
    assert (E : length (List.map snd (lackingFields headers)) = 0%nat).
    { rewrite <- missing_names, length_map. lia. }
    rewrite length_map in E. destruct (lackingFields headers); [reflexivity|discriminate E].
Qed.

(** A text that is parsed without an error has its data lines parsed by the
    loop. *)
Lemma parse_ok (csvText : jsstring) :
  error (parseStockTransactionCSV randomUUID csvText) = None ->
  transactions (parseStockTransactionCSV randomUUID csvText) =
    parseRows (columnsOf csvText) randomUUID (dataLines csvText) [].
Proof.
  unfold parseStockTransactionCSV, columnsOf, dataLines.
  destruct (length (csvLines csvText) <? 2)%nat; [discriminate|].
  destruct (0 <? length _)%nat; [discriminate|].
  reflexivity.
Qed.

Lemma parseRows_app (cm : ColumnMap.t) (l1 l2 : list jsstring)
    (acc : list StockTransaction) :
  parseRows cm randomUUID (l1 ++ l2) acc =
  parseRows cm randomUUID l2 (parseRows cm randomUUID l1 acc).
Proof.
  revert acc. induction l1 as [|line l1 IH]; intros acc.
  - reflexivity.
  - cbn [app parseRows].
    destruct (includes line (js "小計") || includes line (js "總計")); [apply IH|].
    destruct (tryRow cm (randomUUID (length acc)) line); apply IH.
Qed.

Lemma tryRow_no_record (cm : ColumnMap.t) (line uuid : jsstring) :
  JsString.truthy (cell (splitOutsideQuotes line) (ColumnMap.symbol cm)) = false \/
  JsString.truthy (cell (splitOutsideQuotes line) (ColumnMap.date cm)) = false \/
  matchesDate (default [] (cell (splitOutsideQuotes line) (ColumnMap.date cm))) = false ->
  tryRow cm uuid line = Continue.
Proof.
  intros H. unfold tryRow.
  destruct H as [H|[H|H]]; rewrite H; cbn [negb orb]; try reflexivity.
  - rewrite orb_true_r. reflexivity.
  - rewrite orb_true_r. reflexivity.
Qed.

(** A line that gives no record leaves the loop as it found it. *)
Lemma parseRows_no_record (cm : ColumnMap.t) (line : jsstring)
    (rest : list jsstring) (acc : list StockTransaction) :
  givesNoRecord cm line ->
  parseRows cm randomUUID (line :: rest) acc = parseRows cm randomUUID rest acc.
Proof.
  intros H. cbn [parseRows].
  destruct (includes line (js "小計") || includes line (js "總計")) eqn:E;
    [reflexivity|].
  apply orb_false_elim in E. destruct E as [E1 E2].
  destruct H as [H|[H|[H|[H|[H|H]]]]]; try congruence.
  - rewrite tryRow_no_record; auto.
  - rewrite tryRow_no_record; auto.
  - rewrite tryRow_no_record; auto.
  - rewrite H. reflexivity.
Qed.

(** Every record of the loop was there before or is the record of a line. *)
Lemma parseRows_In (cm : ColumnMap.t) (lines : list jsstring)
    (acc : list StockTransaction) (t : StockTransaction) :
  In t (parseRows cm randomUUID lines acc) ->
  In t acc \/ exists line, In line lines /\ recordOf cm line t.
Proof.
  revert acc. induction lines as [|line lines IH]; intros acc Hin.
  - left. exact Hin.
  - cbn [parseRows] in Hin.
    assert (Hrest : forall acc', In t (parseRows cm randomUUID lines acc') ->
              In t acc' ->  In t acc \/ (exists l, In l (line :: lines) /\ recordOf cm l t) ->
              In t acc \/ (exists l, In l (line :: lines) /\ recordOf cm l t)) by auto.
    assert (Hlift : forall acc', In t (parseRows cm randomUUID lines acc') ->
              (In t acc' -> In t acc \/ (exists l, In l (line :: lines) /\ recordOf cm l t)) ->
              In t acc \/ (exists l, In l (line :: lines) /\ recordOf cm l t)).
    { intros acc' H1 H2. destruct (IH acc' H1) as [H|(l & Hl & Hr)].
      - apply H2, H.
      - right. exists l. split; [right; exact Hl|exact Hr]. }
    destruct (includes line (js "小計") || includes line (js "總計")) eqn:E.
    { apply (Hlift acc Hin). auto. }
    apply orb_false_elim in E. destruct E as [E1 E2].
    destruct (tryRow cm (randomUUID (length acc)) line) as [| |t'] eqn:Et.
    + apply (Hlift acc Hin). auto.
    + apply (Hlift acc Hin). auto.
    + apply (Hlift _ Hin). intros H. apply in_app_or in H.
      destruct H as [H|[<-|[]]]; [left; exact H|].
      right. exists line. split; [left; reflexivity|].
      split; [exact E1|]. split; [exact E2|]. eexists. exact Et.
Qed.

(** Every record of a parsed text is the record of one of its data lines. *)
Lemma parsed_record_has_line (csvText : jsstring) (t : StockTransaction) :
  In t (transactions (parseStockTransactionCSV randomUUID csvText)) ->
  exists line, In line (dataLines csvText) /\ recordOf (columnsOf csvText) line t.
Proof.
  intros Hin.
  destruct (error (parseStockTransactionCSV randomUUID csvText)) eqn:E.
  - exfalso. revert E Hin. unfold parseStockTransactionCSV.
    destruct (length (csvLines csvText) <? 2)%nat; [intros _ []|].
    destruct (0 <? length _)%nat; [intros _ []|]. discriminate.
  - rewrite (parse_ok _ E) in Hin.
    destruct (parseRows_In _ _ _ _ Hin) as [[]|H]. exact H.
Qed.

(** What the record of a line holds. *)
Lemma recordOf_fields (cm : ColumnMap.t) (line : jsstring) (t : StockTransaction) :
  recordOf cm line t ->
  let parts := splitOutsideQuotes line in
  exists dateStr symbol,
    cell parts (ColumnMap.date cm) = Some dateStr /\
    cell parts (ColumnMap.symbol cm) = Some symbol /\
    dateStr <> [] /\ symbol <> [] /\ matchesDate dateStr = true /\
    Tx.date t = replaceAll SLASH HYPHEN dateStr /\
    Tx.symbol t = symbol /\
    Tx.realizedProfit t =
      Some match Tx.side t with
           | SELL =>
               if ColumnMap.realizedProfit cm =? -1 then zero
               else cleanNumber (at_index parts (ColumnMap.realizedProfit cm))
           | BUY => zero
           end.
Proof.
  intros (_ & _ & uuid & Ht) parts. unfold tryRow in Ht. fold parts in Ht.
  destruct (cell parts (ColumnMap.symbol cm)) as [[|c symbol]|] eqn:Es;
    try discriminate Ht.
  destruct (cell parts (ColumnMap.date cm)) as [[|d dateStr]|] eqn:Ed;
    try discriminate Ht.
  cbn [JsString.truthy negb orb default from_option id] in Ht.
  destruct (matchesDate (d :: dateStr)) eqn:Em; try discriminate Ht.
  cbn [negb] in Ht.
  destruct (at_index parts (ColumnMap.side cm)) as [sideCell|]; try discriminate Ht.
  injection Ht as <-.
  exists (d :: dateStr), (c :: symbol). cbn [Tx.date Tx.symbol Tx.realizedProfit Tx.side].
  repeat split; try discriminate; try exact Em.
  destruct (includes (removeAll QUOTE (trim sideCell)) (js "買")); [reflexivity|].
  destruct (ColumnMap.realizedProfit cm =? -1); reflexivity.
Qed.

End ParserFacts.

Section ParserSteps.

Variable randomUUID : nat -> jsstring.

(** The parser on a text of a header line and at least one more line. *)
Lemma parse_lines (csvText header l : jsstring) (rest : list jsstring) :
  csvLines csvText = header :: l :: rest ->
  parseStockTransactionCSV randomUUID csvText =
    let cm := columnMap (headersOf header) in
    if (0 <? length (missingColumns cm))%nat then
      {| transactions := [];
         error := Some (js "CSV 檔案缺少必要的欄位，請檢查是否包含：" ++
                        join (js "、") (List.map snd (missingColumns cm))) |}
    else
      {| transactions := parseRows cm randomUUID (l :: rest) []; error := None |}.
Proof.
  intros E. unfold parseStockTransactionCSV. rewrite E. reflexivity.
Qed.

End ParserSteps.

(** A row that is shorter than the side column throws, and is skipped. *)
Example short_row_throws :
  let cm := columnMap (headersOf (js "成交日期,股票代號,成交數量,成交價,應收付帳款,買賣別")) in
  tryRow cm (js "uuid") (js "2024/01/15,2330,1000") = Throw /\
  parseRows cm uuid_example
    [js "2024/01/15,2330,1000"; js "2024/01/16,2330,1000,600,-600020,買進"] [] =
  parseRows cm uuid_example [js "2024/01/16,2330,1000,600,-600020,買進"] [].
Proof. vm_compute. split; reflexivity. Qed.

(** ** The claims about the parser *)

(** C6, as the code has it: for a text of at least two non-empty lines
    whose header has no column for some required field, the parser returns
    no transaction and an error that names every required field without a
    column; without an amount column the error names 應收付帳款. *)
Theorem missing_required_columns_are_named (randomUUID : nat -> jsstring)
    (csvText : jsstring) (field : list jsstring * jsstring) :
  (2 <= length (csvLines csvText))%nat ->
  In field requiredVariants ->
  hasColumn (headersOf (default [] (csvLines csvText !! 0%nat))) (fst field) = false ->
  let headers := headersOf (default [] (csvLines csvText !! 0%nat)) in
  let result := parseStockTransactionCSV randomUUID csvText in
  transactions result = [] /\
  exists msg,
    error result = Some msg /\
    (forall other, In other requiredVariants ->
       hasColumn headers (fst other) = false -> includes msg (snd other) = true) /\
    (hasColumn headers [js "應收付帳款"; js "收付金額"; js "發生金額"] = false ->
     includes msg (js "應收付帳款") = true).
Proof.
  intros Hlen Hin Hno headers result.
  assert (Hlack : forall other, In other requiredVariants ->
            hasColumn headers (fst other) = false -> In other (lackingFields headers)).
  { intros other Ho Hh. unfold lackingFields. apply filter_In.
    split; [exact Ho|]. rewrite Hh. reflexivity. }
  assert (Hne : lackingFields headers <> []).
  { intros E. specialize (Hlack field Hin Hno). rewrite E in Hlack. destruct Hlack. }
  unfold result. rewrite (parse_lacking randomUUID csvText Hlen Hne).
  fold headers. split; [reflexivity|]. eexists. split; [reflexivity|].
  assert (Hall : forall other, In other requiredVariants ->
            hasColumn headers (fst other) = false ->
            includes (js "CSV 檔案缺少必要的欄位，請檢查是否包含：" ++
                      join (js "、") (List.map snd (lackingFields headers)))
              (snd other) = true).
  { intros other Ho Hh. apply includes_app_r, includes_join, in_map, Hlack; assumption. }
  split; [exact Hall|].
  intros Hh.
  apply (Hall ([js "應收付帳款"; js "收付金額"; js "發生金額"], js "應收付帳款")).
  - do 5 right. left. reflexivity.
  - exact Hh.
Qed.

Lemma missing_required_columns_are_named_witness :
  transactions (parseStockTransactionCSV uuid_example csv_no_amount) = [] /\
  exists msg,
    error (parseStockTransactionCSV uuid_example csv_no_amount) = Some msg /\
    includes msg (js "應收付帳款") = true.
Proof.
  assert (Hlen : (2 <= length (csvLines csv_no_amount))%nat)
    by (vm_compute; lia).
  assert (Hin : In ([js "應收付帳款"; js "收付金額"; js "發生金額"], js "應收付帳款")
                  requiredVariants)
    by (do 5 right; left; reflexivity).
  destruct (missing_required_columns_are_named uuid_example csv_no_amount _
              Hlen Hin eq_refl) as (Ht & msg & He & _ & Hm).
  split; [exact Ht|]. exists msg. split; [exact He|].
  apply Hm. reflexivity.
Defined.

(** C6 as stated fails: a header line alone that has no amount column is
    answered by the error for a text without data, which names no field. *)
Lemma header_alone_names_no_field :
  csvLines csv_header_only = [csv_header_only] /\
  hasColumn (headersOf csv_header_only)
    [js "應收付帳款"; js "收付金額"; js "發生金額"] = false /\
  error (parseStockTransactionCSV uuid_example csv_header_only) =
    Some (js "CSV 檔案是空的或缺少標題列 (Header)。") /\
  includes (js "CSV 檔案是空的或缺少標題列 (Header)。") (js "應收付帳款") = false.
Proof. vm_compute. repeat split. Qed.

(** C7: the header 成交日期,股票代號,買賣別,成交數量,成交價,應收付帳款 and the
    row 2024/01/15,2330,買進,1000,600,-600020 give no error and one record:
    a purchase of 1000 shares of 2330 at 600, amount -600020. *)
Theorem round_trip_one_purchase (randomUUID : nat -> jsstring) :
  parseStockTransactionCSV randomUUID
    (js "成交日期,股票代號,買賣別,成交數量,成交價,應收付帳款" ++ [NEWLINE] ++
     js "2024/01/15,2330,買進,1000,600,-600020") =
  {| transactions :=
       [ {| Tx.id := randomUUID 0%nat; Tx.date := js "2024-01-15";
            Tx.symbol := js "2330"; Tx.side := BUY; Tx.tradeType := [];
            Tx.shares := of_Z 1000; Tx.price := of_Z 600; Tx.fees := zero;
            Tx.realizedProfit := Some zero; Tx.amount := of_Z (-600020) |} ];
     error := None |}.
Proof. vm_compute. reflexivity. Qed.

(** C8: in a text that passes the header validation, a data line that holds
    小計 or 總計, or whose symbol or date is missing or empty, or whose date
    does not start with the digits of a date, or whose row throws, gives no
    record: the records are those of the text without that line, each the
    record of another line. The parser is a total function: a row that throws
    ends in the loop. *)
Theorem bad_rows_are_skipped (randomUUID : nat -> jsstring)
    (csvText csvText' header line : jsstring) (before after : list jsstring) :
  csvLines csvText = header :: before ++ line :: after ->
  csvLines csvText' = header :: before ++ after ->
  error (parseStockTransactionCSV randomUUID csvText) = None ->
  givesNoRecord (columnMap (headersOf header)) line ->
  transactions (parseStockTransactionCSV randomUUID csvText) =
    transactions (parseStockTransactionCSV randomUUID csvText') /\
  (forall t, In t (transactions (parseStockTransactionCSV randomUUID csvText)) ->
     exists other, In other (before ++ after) /\
       recordOf (columnMap (headersOf header)) other t).
Proof.
  intros E E' Herr Hbad.
  set (cm := columnMap (headersOf header)) in *.
  assert (Hmiss : (0 <? length (missingColumns cm))%nat = false).
  { revert Herr. destruct before as [|b before'].
    - rewrite (parse_lines randomUUID _ _ _ _ E). cbv zeta. fold cm.
      destruct (0 <? length (missingColumns cm))%nat; [discriminate|reflexivity].
    - rewrite (parse_lines randomUUID _ _ _ _ E). cbv zeta. fold cm.
      destruct (0 <? length (missingColumns cm))%nat; [discriminate|reflexivity]. }
  assert (Hrows : transactions (parseStockTransactionCSV randomUUID csvText) =
            parseRows cm randomUUID (before ++ after) []).
  { transitivity (parseRows cm randomUUID (before ++ line :: after) []).
    - destruct before as [|b before'];
        rewrite (parse_lines randomUUID _ _ _ _ E); cbv zeta; fold cm;
        rewrite Hmiss; reflexivity.
    - rewrite !parseRows_app.
      rewrite parseRows_no_record by exact Hbad. reflexivity. }
  split.
  - rewrite Hrows. destruct (before ++ after) as [|l rest] eqn:Eba.
    + rewrite parse_short; [reflexivity|]. rewrite E'. simpl. lia.
    + rewrite (parse_lines randomUUID _ _ _ _ E'). cbv zeta. fold cm.
      rewrite Hmiss. reflexivity.
  - intros t Hin. rewrite Hrows in Hin.
    destruct (parseRows_In _ _ _ _ _ Hin) as [[]|H]. exact H.
Qed.

Lemma bad_rows_are_skipped_witness :
  transactions (parseStockTransactionCSV uuid_example csv_with_subtotal) =
  transactions (parseStockTransactionCSV uuid_example csv_without_subtotal).
Proof.
  refine (proj1 (bad_rows_are_skipped uuid_example csv_with_subtotal
                   csv_without_subtotal
                   (js "成交日期,股票代號,買賣別,成交數量,成交價,應收付帳款,損益")
                   (js "小計,,,,,-600020,")
                   [js "2024/01/15,2330,買進,1000,600,-600020,"]
                   [js "2024/02/20,2330,賣出,1000,650,647791,47552"] _ _ _ _)).
  - vm_compute. reflexivity.
  - vm_compute. reflexivity.
  - vm_compute. reflexivity.
  - left. vm_compute. reflexivity.
Defined.

(** What the parser writes as [realizedProfit]: on a sale the cleaned number
    of the 損益 cell of its line, or 0 when the header has no 損益 column; on a
    purchase the number 0. *)
Theorem realized_profit_follows_side (randomUUID : nat -> jsstring)
    (csvText : jsstring) (t : StockTransaction) :
  In t (transactions (parseStockTransactionCSV randomUUID csvText)) ->
  let headers := headersOf (default [] (csvLines csvText !! 0%nat)) in
  exists line,
    In line (dataLines csvText) /\
    recordOf (columnMap headers) line t /\
    Tx.realizedProfit t =
      Some match Tx.side t with
           | SELL =>
               if hasColumn headers [js "損益"]
               then cleanNumber (at_index (splitOutsideQuotes line)
                                   (ColumnMap.realizedProfit (columnMap headers)))
               else zero
           | BUY => zero
           end.
Proof.
  intros Hin headers.
  destruct (parsed_record_has_line randomUUID csvText t Hin) as (line & Hl & Hr).
  exists line. split; [exact Hl|]. split; [exact Hr|].
  destruct (recordOf_fields _ _ _ Hr) as (dateStr & sym & _ & _ & _ & _ & _ & _ & _ & Hp).
  rewrite Hp. unfold columnsOf. fold headers.
  change (ColumnMap.realizedProfit (columnMap headers))
    with (findColumnIndex headers [js "損益"]) at 1.
  rewrite findColumnIndex_missing.
  destruct (Tx.side t); [reflexivity|].
  destruct (hasColumn headers [js "損益"]); reflexivity.
Qed.

Lemma realized_profit_follows_side_witness :
  Tx.side sale_record = SELL /\
  exists line,
    In line (dataLines csv_with_subtotal) /\
    Tx.realizedProfit sale_record =
      Some (cleanNumber (at_index (splitOutsideQuotes line) 6)).
Proof.
  split; [reflexivity|].
  assert (Hin : In sale_record
                  (transactions (parseStockTransactionCSV uuid_example csv_with_subtotal)))
    by (vm_compute; right; left; reflexivity).
  destruct (realized_profit_follows_side uuid_example csv_with_subtotal sale_record Hin)
    as (line & Hl & _ & Hp).
  exists line. split; [exact Hl|]. exact Hp.
Defined.

(** C9: the parser at the CSV of one purchase. The record it returns has
    side BUY and carries a [realizedProfit], the number 0, where [types.ts]
    keeps the field for sales only. *)
Lemma purchase_carries_realized_profit :
  exists t,
    transactions (parseStockTransactionCSV uuid_example csv_one_buy) = [t] /\
    Tx.side t = BUY /\
    Tx.realizedProfit t = Some zero /\
    Tx.realizedProfit t <> None.
Proof. eexists. vm_compute. repeat split. discriminate. Qed.

(** C10: the date of every record is the date cell of its line (trimmed,
    quotes removed) with every slash replaced by a hyphen, and holds no
    slash. *)
Theorem dates_use_hyphens (randomUUID : nat -> jsstring)
    (csvText : jsstring) (t : StockTransaction) :
  In t (transactions (parseStockTransactionCSV randomUUID csvText)) ->
  exists line dateStr,
    In line (dataLines csvText) /\
    recordOf (columnsOf csvText) line t /\
    cell (splitOutsideQuotes line) (ColumnMap.date (columnsOf csvText)) = Some dateStr /\
    Tx.date t = replaceAll SLASH HYPHEN dateStr /\
    ~ In SLASH (Tx.date t).
Proof.
  intros Hin.
  destruct (parsed_record_has_line randomUUID csvText t Hin) as (line & Hl & Hr).
  destruct (recordOf_fields _ _ _ Hr) as (dateStr & sym & Hd & _ & _ & _ & _ & Ht & _).
  exists line, dateStr. repeat split; try assumption.
  - destruct Hr as (H & _). exact H.
  - destruct Hr as (_ & H & _). exact H.
  - destruct Hr as (_ & _ & H). exact H.
  - rewrite Ht. apply replaceAll_slash.
Qed.

Lemma dates_use_hyphens_witness :
  Tx.date sale_record = js "2024-02-20" /\
  exists line dateStr,
    In line (dataLines csv_with_subtotal) /\
    cell (splitOutsideQuotes line) (ColumnMap.date (columnsOf csv_with_subtotal))
      = Some dateStr /\
    js "2024-02-20" = replaceAll SLASH HYPHEN dateStr.
Proof.
  split; [reflexivity|].
  assert (Hin : In sale_record
                  (transactions (parseStockTransactionCSV uuid_example csv_with_subtotal)))
    by (vm_compute; right; left; reflexivity).
  destruct (dates_use_hyphens uuid_example csv_with_subtotal sale_record Hin)
    as (line & dateStr & Hl & _ & Hc & Hd & _).
  exists line, dateStr. split; [exact Hl|]. split; [exact Hc|]. exact Hd.
Defined.

(** ** More about the header search *)

Section ColumnSearch.

Lemma findIndexFrom_found {A : Type} (f : A -> bool) (xs : list A) (i : Z) :
  0 <= i ->
  findIndexFrom f i xs <> -1 ->
  i <= findIndexFrom f i xs < i + Z.of_nat (length xs) /\
  (exists x, xs !! Z.to_nat (findIndexFrom f i xs - i) = Some x /\ f x = true) /\
  Forall (fun x => f x = false) (take (Z.to_nat (findIndexFrom f i xs - i)) xs).
Proof.
  revert i. induction xs as [|x xs IH]; intros i Hi Hne; cbn [findIndexFrom] in *.
  - contradiction.
  - destruct (f x) eqn:Efx.
    + replace (i - i) with 0 by lia. cbn [length]. split; [lia|].
      split; [exists x; split; [reflexivity|exact Efx]|]. constructor.
    + destruct (IH (i + 1) ltac:(lia) Hne) as (Hr & (y & Hy & Hfy) & Hall).
      set (j := findIndexFrom f (i + 1) xs) in *.
      replace (Z.to_nat (j - i)) with (S (Z.to_nat (j - (i + 1)))) by lia.
      cbn [length]. split; [lia|].
      split; [exists y; split; [exact Hy|exact Hfy]|].
      cbn [take]. constructor; [exact Efx|exact Hall].
Qed.

End ColumnSearch.

(** X1: the column found for a field is a position of the header list whose
    header contains one of the field's keywords, and no column is found
    exactly when no header contains any of them. *)
Theorem findColumnIndex_sound (headers keywords : list jsstring) :
  let i := findColumnIndex headers keywords in
  (i = -1 <-> hasColumn headers keywords = false) /\
  (i <> -1 ->
   0 <= i < Z.of_nat (length headers) /\
   exists header keyword,
     at_index headers i = Some header /\ In keyword keywords /\
     includes header keyword = true).
Proof.
  intros i. split.
  - pose proof (findColumnIndex_missing headers keywords) as H. fold i in H.
    destruct (hasColumn headers keywords); cbn [negb] in H.
    + apply Z.eqb_neq in H. split; [contradiction|discriminate].
    + apply Z.eqb_eq in H. split; [reflexivity|intros _; exact H].
  - unfold i. clear i. induction keywords as [|k ks IH]; cbn [findColumnIndex].
    + intros H. contradiction.
    + unfold findIndex.
      destruct (findIndexFrom (fun header => includes header k) 0 headers =? -1) eqn:E;
        cbn [negb].
      * intros H. destruct (IH H) as (Hr & h & kw & Hh & Hk & Hi).
        split; [exact Hr|]. exists h, kw. split; [exact Hh|]. split; [right; exact Hk|exact Hi].
      * intros _. apply Z.eqb_neq in E.
        destruct (findIndexFrom_found _ headers 0 ltac:(lia) E) as (Hr & (h & Hh & Hi) & _).
        rewrite Z.sub_0_r in Hh. split; [lia|]. exists h, k.
        split; [|split; [left; reflexivity|exact Hi]].
        unfold at_index. destruct (Z.ltb_spec (findIndexFrom (fun header => includes header k) 0 headers) 0);
          [lia|exact Hh].
Qed.

Lemma findColumnIndex_sound_witness :
  findColumnIndex (headersOf (js "日期,成交股數,買賣")) [js "成交數量"; js "股數"; js "成交股數"] = 1 /\
  exists header keyword,
    at_index (headersOf (js "日期,成交股數,買賣")) 1 = Some header /\
    In keyword [js "成交數量"; js "股數"; js "成交股數"] /\
    includes header keyword = true.
Proof.
  split; [vm_compute; reflexivity|].
  destruct (findColumnIndex_sound (headersOf (js "日期,成交股數,買賣"))
              [js "成交數量"; js "股數"; js "成交股數"]) as (_ & H).
  apply H. vm_compute. discriminate.
Defined.

(** ** Facts about splitting *)

Section Splitting.

Lemma splitOutsideQuotes_cons (line : jsstring) :
  exists p ps, splitOutsideQuotes line = p :: ps.
Proof.
  destruct line as [|c rest]; cbn [splitOutsideQuotes].
  - eexists _, _. reflexivity.
  - destruct (char_eqb c COMMA && evenQuotes rest); [eexists _, _; reflexivity|].
    destruct (splitOutsideQuotes rest); eexists _, _; reflexivity.
Qed.

Lemma split_cons (sep : char16) (s : jsstring) : exists p ps, split sep s = p :: ps.
Proof.
  destruct s as [|c rest]; cbn [split].
  - eexists _, _. reflexivity.
  - destruct (char_eqb c sep); [eexists _, _; reflexivity|].
    destruct (split sep rest); eexists _, _; reflexivity.
Qed.

Lemma join_cons_char (sep : jsstring) (c : char16) (p : jsstring) (ps : list jsstring) :
  join sep ((c :: p) :: ps) = c :: join sep (p :: ps).
Proof. destruct ps; reflexivity. Qed.

Lemma join_nil_cons (sep : jsstring) (p : jsstring) (ps : list jsstring) :
  join sep ([] :: p :: ps) = sep ++ join sep (p :: ps).
Proof. reflexivity. Qed.

Lemma evenQuotes_cons (c : char16) (s : jsstring) :
  evenQuotes (c :: s) = if char_eqb QUOTE c then negb (evenQuotes s) else evenQuotes s.
Proof.
  unfold evenQuotes. cbn [List.filter].
  destruct (char_eqb QUOTE c); [|reflexivity].
  cbn [length]. rewrite Nat.even_succ, <- Nat.negb_even. reflexivity.
Qed.

(** The first piece has the parity of the line, the others are even. *)
Lemma splitOutsideQuotes_parity (line : jsstring) :
  match splitOutsideQuotes line with
  | p :: ps =>
      evenQuotes p = evenQuotes line /\ Forall (fun q => evenQuotes q = true) ps
  | [] => False
  end.
Proof.
  induction line as [|c rest IH]; cbn [splitOutsideQuotes].
  - split; [reflexivity|constructor].
  - destruct (char_eqb c COMMA && evenQuotes rest) eqn:E.
    + apply andb_true_iff in E. destruct E as [Ec Er].
      split.
      * rewrite evenQuotes_cons. apply N.eqb_eq in Ec. subst c.
        cbn [char_eqb]. rewrite Er. reflexivity.
      * destruct (splitOutsideQuotes rest) as [|p ps]; [contradiction|].
        destruct IH as [Hp Hps]. constructor; [congruence|exact Hps].
    + destruct (splitOutsideQuotes rest) as [|p ps]; [contradiction|].
      destruct IH as [Hp Hps]. split; [|exact Hps].
      rewrite !evenQuotes_cons, Hp. reflexivity.
Qed.

End Splitting.

(** X2: joining the pieces of a line with commas gives the line back, for
    the quote-aware split of the data lines and for the plain split of the
    header and the text. *)
Theorem split_then_join (sep : char16) (s : jsstring) :
  join [COMMA] (splitOutsideQuotes s) = s /\ join [sep] (split sep s) = s.
Proof.
  split.
  - induction s as [|c rest IH]; [reflexivity|]. cbn [splitOutsideQuotes].
    destruct (splitOutsideQuotes_cons rest) as (p & ps & E). rewrite E in *.
    destruct (char_eqb c COMMA && evenQuotes rest) eqn:Ec.
    + rewrite join_nil_cons, IH. apply andb_true_iff in Ec. destruct Ec as [Ec _].
      apply N.eqb_eq in Ec. subst c. reflexivity.
    + rewrite join_cons_char, IH. reflexivity.
  - induction s as [|c rest IH]; [reflexivity|]. cbn [split].
    destruct (split_cons sep rest) as (p & ps & E). rewrite E in *.
    destruct (char_eqb c sep) eqn:Ec.
    + rewrite join_nil_cons, IH. apply N.eqb_eq in Ec. subst c. reflexivity.
    + rewrite join_cons_char, IH. reflexivity.
Qed.

(** X3: when the quotes of a line are paired (their number is even), every
    cell the split gives has paired quotes: no cell ends inside a quoted
    field. *)
Theorem cells_keep_quotes_paired (line : jsstring) :
  evenQuotes line = true ->
  Forall (fun part => evenQuotes part = true) (splitOutsideQuotes line).
Proof.
  intros H. pose proof (splitOutsideQuotes_parity line) as P.
  destruct (splitOutsideQuotes line) as [|p ps]; [contradiction|].
  destruct P as [Hp Hps]. constructor; [congruence|exact Hps].
Qed.

Lemma cells_keep_quotes_paired_witness :
  Forall (fun part => evenQuotes part = true)
    (splitOutsideQuotes
       (js "2330.TW,台積電," ++ [QUOTE] ++ js "1,000" ++ [QUOTE] ++ js ",600,650")) /\
  length (splitOutsideQuotes
       (js "2330.TW,台積電," ++ [QUOTE] ++ js "1,000" ++ [QUOTE] ++ js ",600,650")) = 5%nat.
Proof.
  split; [|reflexivity]. apply cells_keep_quotes_paired. reflexivity.
Defined.

(** X4: on a line without quotes the quote-aware split is the plain split
    at every comma. *)
Theorem split_without_quotes (line : jsstring) :
  ~ In QUOTE line ->
  splitOutsideQuotes line = split COMMA line.
Proof.
  induction line as [|c rest IH]; intros Hq; [reflexivity|].
  cbn [splitOutsideQuotes split].
  assert (Hrest : ~ In QUOTE rest) by (intros H; apply Hq; right; exact H).
  assert (He : evenQuotes rest = true).
  { clear IH Hq. induction rest as [|d r IHr]; [reflexivity|].
    rewrite evenQuotes_cons.
    destruct (char_eqb QUOTE d) eqn:E.
    - apply N.eqb_eq in E. exfalso. apply Hrest. left. symmetry. exact E.
    - apply IHr. intros H. apply Hrest. right. exact H. }
  rewrite He, andb_true_r, (IH Hrest). reflexivity.
Qed.

Lemma split_without_quotes_witness :
  splitOutsideQuotes (js "2024/01/15,2330,買進,1000,600,-600020") =
  split COMMA (js "2024/01/15,2330,買進,1000,600,-600020").
Proof.
  apply split_without_quotes. vm_compute. intuition discriminate.
Defined.

(** ** Facts about number cells *)

Section NumberCells.

Lemma removeAll_comm (a b : char16) (s : jsstring) :
  removeAll a (removeAll b s) = removeAll b (removeAll a s).
Proof.
  unfold removeAll. induction s as [|c s IH]; [reflexivity|].
  cbn [List.filter].
  destruct (negb (char_eqb c a)) eqn:Ea, (negb (char_eqb c b)) eqn:Eb;
    cbn [List.filter]; rewrite ?Ea, ?Eb, ?IH; reflexivity.
Qed.

Lemma removeAll_idem (a : char16) (s : jsstring) :
  removeAll a (removeAll a s) = removeAll a s.
Proof.
  unfold removeAll. induction s as [|c s IH]; [reflexivity|].
  cbn [List.filter]. destruct (negb (char_eqb c a)) eqn:Ea;
    cbn [List.filter]; rewrite ?Ea, ?IH; reflexivity.
Qed.

(** The number of a cell by the characters that are left of it. *)
Lemma cleanNumber_cleaned (s : jsstring) :
  cleanNumber (Some s) =
  let num := parseFloat (removeAll COMMA (removeAll QUOTE s)) in
  if isNaN num then zero else num.
Proof.
  destruct s as [|c s]; reflexivity.
Qed.

Lemma cleanNumber_not_NaN (str : option jsstring) : isNaN (cleanNumber str) = false.
Proof.
  destruct str as [[|c s]|]; try reflexivity. unfold cleanNumber.
  destruct (isNaN (parseFloat _)) eqn:E; [reflexivity|exact E].
Qed.

End NumberCells.

(** X5: quotes and commas in a number cell do not count: the number of a
    cell is the number of the cell without its commas, and of the cell
    without its quotes. *)
Theorem cleanNumber_ignores_separators (s : jsstring) :
  cleanNumber (Some (removeAll COMMA s)) = cleanNumber (Some s) /\
  cleanNumber (Some (removeAll QUOTE s)) = cleanNumber (Some s).
Proof.
  rewrite !cleanNumber_cleaned. cbv zeta. split.
  - rewrite (removeAll_comm QUOTE COMMA s), removeAll_idem. reflexivity.
  - rewrite removeAll_idem. reflexivity.
Qed.

(** ** Facts about the inventory parser *)

Section InventoryFacts.

Lemma inventory_missing_names (headers : list jsstring) :
  List.map snd (inventoryMissingColumns (inventoryColumnMap headers)) =
  List.map snd
    (List.filter (fun field => negb (hasColumn headers [fst field])) inventoryKeywords).
Proof.
  unfold inventoryMissingColumns, inventoryRequiredFields, inventoryKeywords,
    inventoryColumnMap.
  cbn [List.filter fst snd Inv.c_symbol Inv.c_name Inv.c_shares Inv.c_avgCost
       Inv.c_currentPrice].
  rewrite !findColumnIndex_missing.
  repeat match goal with
         | |- context [negb (hasColumn ?h ?k)] => destruct (negb (hasColumn h k))
         end; reflexivity.
Qed.

Lemma inventoryRows_omap (cm : Inv.Columns) (lines : list jsstring)
    (acc : list Inv.InventoryAsset) :
  inventoryRows cm lines acc = acc ++ omap (inventoryRow cm) lines.
Proof.
  revert acc. induction lines as [|line lines IH]; intros acc.
  - cbn. rewrite app_nil_r. reflexivity.
  - cbn [inventoryRows omap list_omap].
    destruct (inventoryRow cm line) as [a|].
    + rewrite IH, <- app_assoc. reflexivity.
    + apply IH.
Qed.

Lemma trim_In (c : char16) (s : jsstring) : In c (trim s) -> In c s.
Proof.
  assert (Hstart : forall t, In c (trimStart t) -> In c t).
  { induction t as [|d t IH]; cbn [trimStart]; [auto|].
    destruct (isWhiteSpace d); [intros H; right; apply IH, H|auto]. }
  unfold trim, trimEnd. intros H.
  apply Hstart. apply in_rev in H. apply Hstart in H. apply in_rev in H. exact H.
Qed.

Lemma take_In {A : Type} (x : A) (n : nat) (xs : list A) : In x (take n xs) -> In x xs.
Proof.
  revert n. induction xs as [|y xs IH]; intros [|n]; cbn [take].
  - intros [].
  - intros [].
  - intros [].
  - intros [H|H]; [left; exact H|right; apply (IH n), H].
Qed.

(** A formatted symbol holds no quote and no dot. *)
Lemma formatSymbol_clean (str : option jsstring) :
  ~ In QUOTE (formatSymbol str) /\ ~ In DOT (formatSymbol str).
Proof.
  destruct str as [[|c s]|]; try (split; intros []).
  unfold formatSymbol. set (cleaned := trim (removeAll QUOTE (c :: s))).
  assert (Hq : ~ In QUOTE cleaned).
  { intros H. apply trim_In in H. unfold removeAll in H. apply filter_In in H.
    destruct H as [_ H]. rewrite char_eqb_refl in H. discriminate H. }
  unfold findIndex.
  destruct (findIndexFrom (fun d => char_eqb d DOT) 0 cleaned =? -1) eqn:E; cbn [negb].
  - split; [exact Hq|]. apply Z.eqb_eq in E.
    destruct (findIndexFrom_range (fun d => char_eqb d DOT) cleaned 0 ltac:(lia))
      as [[He _]|[_ Hf]]; [|lia].
    intros H. assert (Hex : existsb (fun d => char_eqb d DOT) cleaned = true).
    { apply existsb_exists. exists DOT. split; [exact H|apply char_eqb_refl]. }
    congruence.
  - apply Z.eqb_neq in E.
    destruct (findIndexFrom_found _ cleaned 0 ltac:(lia) E) as (_ & _ & Hall).
    rewrite Z.sub_0_r in Hall. split.
    + intros H. apply Hq. eapply take_In, H.
    + intros H. rewrite Forall_forall in Hall.
      assert (Hd : char_eqb DOT DOT = false)
        by (apply (Hall DOT), list_elem_of_In, H).
      rewrite char_eqb_refl in Hd. discriminate Hd.
Qed.

Lemma inventory_ok (csvText : jsstring) :
  Inv.error (parseStockInventoryCSV csvText) = None ->
  Inv.assets (parseStockInventoryCSV csvText) =
    omap (inventoryRow
            (inventoryColumnMap (headersOf (default [] (csvLines csvText !! 0%nat)))))
      (dataLines csvText).
Proof.
  unfold parseStockInventoryCSV, dataLines.
  destruct (length (csvLines csvText) <? 2)%nat; [discriminate|].
  destruct (0 <? length _)%nat; [discriminate|].
  intros _. cbn [Inv.assets]. rewrite inventoryRows_omap. reflexivity.
Qed.

Lemma inventory_asset_has_line (csvText : jsstring) (a : Inv.InventoryAsset) :
  In a (Inv.assets (parseStockInventoryCSV csvText)) ->
  exists line,
    In line (dataLines csvText) /\
    inventoryRow
      (inventoryColumnMap (headersOf (default [] (csvLines csvText !! 0%nat)))) line
    = Some a.
Proof.
  intros Hin.
  destruct (Inv.error (parseStockInventoryCSV csvText)) eqn:E.
  - exfalso. revert E Hin. unfold parseStockInventoryCSV.
    destruct (length (csvLines csvText) <? 2)%nat; [intros _ []|].
    destruct (0 <? length _)%nat; [intros _ []|]. discriminate.
  - rewrite (inventory_ok _ E) in Hin. apply list_elem_of_In in Hin.
    apply list_elem_of_omap in Hin. destruct Hin as (line & Hl & Hr).
    exists line. split; [apply list_elem_of_In, Hl|exact Hr].
Qed.

End InventoryFacts.

(** X6: for an inventory text of at least two non-empty lines whose header
    has no column for some of the five fields, the parser returns no asset
    and the error [CSV 缺少必要欄位: ] followed by the keys of the fields
    without a column, in the order symbol, name, shares, avgCost,
    currentPrice, separated by a comma and a space. *)
Theorem inventory_missing_columns_are_listed (csvText : jsstring)
    (field : jsstring * jsstring) :
  (2 <= length (csvLines csvText))%nat ->
  In field inventoryKeywords ->
  hasColumn (headersOf (default [] (csvLines csvText !! 0%nat))) [fst field] = false ->
  let headers := headersOf (default [] (csvLines csvText !! 0%nat)) in
  let lacking :=
    List.filter (fun f => negb (hasColumn headers [fst f])) inventoryKeywords in
  parseStockInventoryCSV csvText =
    {| Inv.assets := [];
       Inv.error := Some (js "CSV 缺少必要欄位: " ++ join (js ", ") (List.map snd lacking)) |}
  /\ In (snd field) (List.map snd lacking).
Proof.
  intros Hlen Hin Hno headers lacking.
  assert (Hl : In field lacking).
  { unfold lacking. apply filter_In. split; [exact Hin|]. fold headers in Hno.
    rewrite Hno. reflexivity. }
  split; [|apply in_map, Hl].
  unfold parseStockInventoryCSV.
  destruct (Nat.ltb_spec (length (csvLines csvText)) 2) as [H'|_]; [lia|].
  fold headers.
  destruct (Nat.ltb_spec 0 (length (inventoryMissingColumns (inventoryColumnMap headers))))
    as [_|H0].
  - rewrite inventory_missing_names. reflexivity.
  - exfalso.
    assert (E : length (List.map snd (inventoryMissingColumns (inventoryColumnMap headers)))
                = 0%nat) by (rewrite length_map; lia).
    rewrite inventory_missing_names in E. fold lacking in E. rewrite length_map in E.
    destruct lacking; [destruct Hl|discriminate E].
Qed.

Lemma inventory_missing_columns_are_listed_witness :
  parseStockInventoryCSV csv_inventory_no_price =
    {| Inv.assets := []; Inv.error := Some (js "CSV 缺少必要欄位: currentPrice") |}.
Proof.
  assert (Hlen : (2 <= length (csvLines csv_inventory_no_price))%nat)
    by (vm_compute; lia).
  assert (Hin : In (js "現價", js "currentPrice") inventoryKeywords)
    by (do 4 right; left; reflexivity).
  destruct (inventory_missing_columns_are_listed csv_inventory_no_price _ Hlen Hin eq_refl)
    as (H & _).
  rewrite H. vm_compute. reflexivity.
Defined.

(** X7: the symbol of every asset the inventory parser returns is not
    empty and holds neither a quote nor a dot (an exchange suffix such as
    [.TW] is cut off). *)
Theorem inventory_symbols_are_bare (csvText : jsstring) (a : Inv.InventoryAsset) :
  In a (Inv.assets (parseStockInventoryCSV csvText)) ->
  Inv.symbol a <> [] /\ ~ In QUOTE (Inv.symbol a) /\ ~ In DOT (Inv.symbol a).
Proof.
  intros Hin. destruct (inventory_asset_has_line _ _ Hin) as (line & _ & Hr).
  unfold inventoryRow in Hr.
  set (sym := formatSymbol _) in Hr.
  destruct (JsString.truthy (Some sym)) eqn:Et; cbn [negb] in Hr; [|discriminate Hr].
  injection Hr as <-. cbn [Inv.symbol]. split.
  - destruct sym; [discriminate Et|discriminate].
  - apply formatSymbol_clean.
Qed.

Lemma inventory_symbols_are_bare_witness :
  List.map Inv.symbol (Inv.assets (parseStockInventoryCSV csv_inventory)) =
    [js "2330"; js "00878"] /\
  Forall (fun a => ~ In DOT (Inv.symbol a))
    (Inv.assets (parseStockInventoryCSV csv_inventory)).
Proof.
  split; [vm_compute; reflexivity|].
  apply Forall_forall. intros a Ha. apply list_elem_of_In in Ha.
  apply (inventory_symbols_are_bare csv_inventory a Ha).
Defined.

(** X8: an inventory text that passes the header check gives one asset for
    each data line whose formatted symbol is not empty, in the order of the
    lines, each made from its own line alone; no line is left out for another
    reason. *)
Theorem inventory_assets_follow_lines (csvText : jsstring) :
  Inv.error (parseStockInventoryCSV csvText) = None ->
  let cm := inventoryColumnMap (headersOf (default [] (csvLines csvText !! 0%nat))) in
  Inv.assets (parseStockInventoryCSV csvText) = omap (inventoryRow cm) (dataLines csvText) /\
  List.map Inv.symbol (Inv.assets (parseStockInventoryCSV csvText)) =
    List.filter (fun s => JsString.truthy (Some s))
      (List.map (fun line => formatSymbol (at_index (splitOutsideQuotes line) (Inv.c_symbol cm)))
         (dataLines csvText)).
Proof.
  intros E cm. rewrite (inventory_ok _ E). fold cm. split; [reflexivity|].
  induction (dataLines csvText) as [|line lines IH]; [reflexivity|].
  cbn [omap list_omap List.map List.filter]. unfold inventoryRow at 1.
  destruct (JsString.truthy (Some (formatSymbol _))); cbn [negb].
  - cbn [List.map Inv.symbol]. f_equal. exact IH.
  - exact IH.
Qed.

Lemma inventory_assets_follow_lines_witness :
  length (Inv.assets (parseStockInventoryCSV csv_inventory)) = 2%nat /\
  length (dataLines csv_inventory) = 3%nat.
Proof.
  destruct (inventory_assets_follow_lines csv_inventory eq_refl) as (H & _).
  rewrite H. split; vm_compute; reflexivity.
Defined.

(** ** Facts about substrings *)

Section Substrings.

Lemma startsWith_prefix (a b p : jsstring) :
  startsWith a p = true -> startsWith (a ++ b) p = true.
Proof.
  revert a. induction p as [|c p IH]; intros a H; [reflexivity|].
  destruct a as [|d a]; [discriminate H|].
  cbn [startsWith app] in *. apply andb_true_iff in H. destruct H as [Hc Hp].
  rewrite Hc, (IH a Hp). reflexivity.
Qed.

Lemma includes_unfold (s p : jsstring) :
  includes s p =
  startsWith s p || match s with [] => false | _ :: s' => includes s' p end.
Proof. destruct s; reflexivity. Qed.

Lemma includes_prefix (a b p : jsstring) :
  includes a p = true -> includes (a ++ b) p = true.
Proof.
  induction a as [|c a IH]; intros H.
  - rewrite includes_unfold in H. rewrite orb_false_r in H.
    rewrite includes_unfold. rewrite (startsWith_prefix [] b p H). reflexivity.
  - rewrite includes_unfold in H. apply orb_true_iff in H.
    change ((c :: a) ++ b) with (c :: (a ++ b)). rewrite includes_unfold.
    destruct H as [H|H].
    + pose proof (startsWith_prefix (c :: a) b p H) as Hs. cbn [app] in Hs.
      rewrite Hs. reflexivity.
    + rewrite (IH H). apply orb_true_r.
Qed.

Lemma trimStart_suffix (s : jsstring) : exists w, s = w ++ trimStart s.
Proof.
  induction s as [|c s IH]; cbn [trimStart].
  - exists []. reflexivity.
  - destruct (isWhiteSpace c).
    + destruct IH as (w & E). exists (c :: w). cbn [app]. rewrite <- E. reflexivity.
    + exists []. reflexivity.
Qed.

(** A trimmed string lies inside the string: what it contains, the string
    contains. *)
Lemma includes_trim (s p : jsstring) : includes (trim s) p = true -> includes s p = true.
Proof.
  unfold trim, trimEnd. intros H.
  destruct (trimStart_suffix s) as (w & Es).
  destruct (trimStart_suffix (rev (trimStart s))) as (w' & Er).
  assert (E : trimStart s = rev (trimStart (rev (trimStart s))) ++ rev w').
  { rewrite <- rev_app_distr, <- Er, rev_involutive. reflexivity. }
  rewrite Es. apply includes_app_r. rewrite E. apply includes_prefix, H.
Qed.

Lemma startsWith_app_pattern (s p q : jsstring) :
  startsWith s (p ++ q) = true -> startsWith s p = true.
Proof.
  revert s. induction p as [|c p IH]; intros s H; [reflexivity|].
  destruct s as [|d s]; [discriminate H|].
  cbn [startsWith app] in *. apply andb_true_iff in H. destruct H as [Hc Hp].
  rewrite Hc, (IH s Hp). reflexivity.
Qed.

Lemma includes_app_pattern (s p q : jsstring) :
  includes s (p ++ q) = true -> includes s p = true.
Proof.
  induction s as [|c s IH]; intros H.
  - rewrite includes_unfold in H. rewrite includes_unfold.
    rewrite orb_false_r in *. apply (startsWith_app_pattern _ _ _ H).
  - rewrite (includes_unfold (c :: s)) in H. rewrite (includes_unfold (c :: s)).
    apply orb_true_iff in H. destruct H as [H|H].
    + rewrite (startsWith_app_pattern _ _ _ H). reflexivity.
    + rewrite (IH H). apply orb_true_r.
Qed.

Lemma removeSub_nomatch (pat : jsstring) (c : char16) (rest : jsstring) :
  startsWith (c :: rest) pat = false ->
  removeSub pat (c :: rest) = c :: removeSub pat rest.
Proof. intros H. unfold removeSub. cbn [removeSubFrom]. rewrite H. reflexivity. Qed.

(** Where the pattern does not occur nothing is removed. *)
Lemma removeSub_absent (pat s : jsstring) :
  includes s pat = false -> removeSub pat s = s.
Proof.
  induction s as [|c s IH]; intros H; [reflexivity|].
  rewrite includes_unfold in H. apply orb_false_elim in H. destruct H as [H1 H2].
  rewrite (removeSub_nomatch _ _ _ H1), (IH H2). reflexivity.
Qed.

Lemma removeSub_fence_match (rest : jsstring) :
  removeSub FENCE (BACKTICK :: BACKTICK :: BACKTICK :: rest) = removeSub FENCE rest.
Proof. reflexivity. Qed.

Lemma startsWith_fence (s : jsstring) :
  startsWith s FENCE = true ->
  exists rest, s = BACKTICK :: BACKTICK :: BACKTICK :: rest.
Proof.
  destruct s as [|a [|b [|c rest]]]; cbn [startsWith FENCE];
    rewrite ?andb_false_r; try discriminate.
  intros H. apply andb_true_iff in H. destruct H as [Ha H].
  apply andb_true_iff in H. destruct H as [Hb H].
  apply andb_true_iff in H. destruct H as [Hc _].
  apply N.eqb_eq in Ha, Hb, Hc. subst. exists rest. reflexivity.
Qed.

Lemma removeSub_fence_bounds (n : nat) (s : jsstring) :
  (length s <= n)%nat ->
  (leadingTicks (removeSub FENCE s) <= 2)%nat /\
  (leadingTicks (removeSub FENCE s) <= leadingTicks s)%nat /\
  includes (removeSub FENCE s) FENCE = false.
Proof.
  revert s. induction n as [|n IH]; intros s Hlen.
  - destruct s; [|cbn in Hlen; lia]. repeat split; cbn; lia.
  - destruct s as [|c rest]; [repeat split; cbn; lia|].
    destruct (startsWith (c :: rest) FENCE) eqn:E.
    + destruct (startsWith_fence _ E) as (r & Er). rewrite Er in *.
      rewrite removeSub_fence_match.
      destruct (IH r ltac:(cbn [length] in Hlen; lia)) as (H1 & H2 & H3).
      split; [exact H1|]. split; [|exact H3].
      cbn [leadingTicks]. rewrite char_eqb_refl. lia.
    + rewrite (removeSub_nomatch _ _ _ E).
      destruct (IH rest ltac:(cbn [length] in Hlen; lia)) as (H1 & H2 & H3).
      assert (Hlead : (leadingTicks (c :: removeSub FENCE rest) <= 2)%nat /\
                      (leadingTicks (c :: removeSub FENCE rest)
                       <= leadingTicks (c :: rest))%nat).
      { cbn [leadingTicks]. destruct (char_eqb c BACKTICK) eqn:Ec; [|lia].
        apply N.eqb_eq in Ec. subst c.
        assert (Hr : (leadingTicks rest <= 1)%nat).
        { destruct rest as [|a [|b r]]; cbn [leadingTicks].
          - lia.
          - destruct (char_eqb a BACKTICK); lia.
          - destruct (char_eqb a BACKTICK) eqn:Ea; [|lia].
            destruct (char_eqb b BACKTICK) eqn:Eb; [|lia].
            apply N.eqb_eq in Ea, Eb. subst. discriminate E. }
        lia. }
      destruct Hlead as [Hl1 Hl2]. split; [exact Hl1|]. split; [exact Hl2|].
      rewrite includes_unfold, H3, orb_false_r.
      destruct (startsWith (c :: removeSub FENCE rest) FENCE) eqn:E'; [|reflexivity].
      destruct (startsWith_fence _ E') as (r & Er). rewrite Er in Hl1.
      cbn [leadingTicks] in Hl1. rewrite char_eqb_refl in Hl1. lia.
Qed.

End Substrings.

(** X9: a cleaned model answer holds no Markdown fence: three backticks in
    a row do not occur in what [cleanJsonString] returns. *)
Theorem cleanJsonString_has_no_fence (text : jsstring) :
  includes (cleanJsonString text) FENCE = false.
Proof.
  destruct text as [|c text]; [reflexivity|]. unfold cleanJsonString.
  set (t := removeSub (FENCE ++ js "json") (c :: text)).
  destruct (includes (trim (removeSub FENCE t)) FENCE) eqn:E; [|reflexivity].
  apply includes_trim in E.
  destruct (removeSub_fence_bounds (length t) t (le_n _)) as (_ & _ & H).
  congruence.
Qed.

(** X10: an answer without a fence is only trimmed. *)
Theorem cleanJsonString_without_fence (text : jsstring) :
  text <> [] ->
  includes text FENCE = false ->
  cleanJsonString text = trim text.
Proof.
  intros Hne H. destruct text as [|c text]; [contradiction|].
  unfold cleanJsonString.
  assert (H' : includes (c :: text) (FENCE ++ js "json") = false).
  { destruct (includes (c :: text) (FENCE ++ js "json")) eqn:E; [|reflexivity].
    apply includes_app_pattern in E. congruence. }
  rewrite (removeSub_absent _ _ H'), (removeSub_absent _ _ H). reflexivity.
Qed.

Lemma cleanJsonString_without_fence_witness :
  cleanJsonString (js " [1, 2] ") = js "[1, 2]".
Proof.
  rewrite cleanJsonString_without_fence.
  - reflexivity.
  - discriminate.
  - reflexivity.
Defined.

(** ** Facts about the stored keys *)

(** X11: a saved API key and a saved Google client id are read back as they
    were saved, and saving the one changes neither the other nor the fee
    discount. *)
Theorem saved_keys_are_read_back (localStorage : Storage) (key id : jsstring) :
  getApiKey (saveApiKey localStorage key) = key /\
  getGoogleClientId (saveGoogleClientId localStorage id) = id /\
  getGoogleClientId (saveApiKey localStorage key) = getGoogleClientId localStorage /\
  getApiKey (saveGoogleClientId localStorage id) = getApiKey localStorage /\
  getFeeDiscount (saveApiKey localStorage key) = getFeeDiscount localStorage /\
  getFeeDiscount (saveGoogleClientId localStorage id) = getFeeDiscount localStorage.
Proof.
  unfold getApiKey, getGoogleClientId, getFeeDiscount, saveApiKey, saveGoogleClientId,
    setItem, getItem.
  assert (N1 : js "ft_api_key" <> js "ft_google_client_id")
    by (intros H; vm_compute in H; discriminate H).
  assert (N2 : js "ft_api_key" <> STORAGE_KEYS.FEE_DISCOUNT)
    by (intros H; vm_compute in H; discriminate H).
  assert (N3 : js "ft_google_client_id" <> STORAGE_KEYS.FEE_DISCOUNT)
    by (intros H; vm_compute in H; discriminate H).
  rewrite !lookup_insert_eq.
  rewrite (lookup_insert_ne localStorage _ _ key N1).
  rewrite (lookup_insert_ne localStorage _ _ id (not_eq_sym N1)).
  rewrite (lookup_insert_ne localStorage _ _ key N2).
  rewrite (lookup_insert_ne localStorage _ _ id N3).
  repeat split.
Qed.

(** ** Facts about the enrichment *)

Section Enrichment.

Lemma gt_zero_truthy (x : number) : gt x zero = true -> JsNumber.truthy x = true.
Proof. destruct x as [s|s| |s m e]; try reflexivity; discriminate. Qed.

Lemma getAI_without_key (localStorage : Storage) :
  getApiKey localStorage = [] -> getAI localStorage = None.
Proof. intros H. unfold getAI. rewrite H. reflexivity. Qed.

End Enrichment.

(** X12: without a stored API key (none, or the empty string) both
    enrichments return [null] whatever the model would answer: the error of
    [getAI] is caught. This is the state after [clearAllData]. *)
Theorem enrichment_needs_a_key (localStorage : Storage)
    (generateContent : jsstring -> AIOutcome) (stock : AssetEntry) :
  getApiKey localStorage = [] ->
  enrichStockBasicInfo localStorage generateContent stock = None /\
  enrichStockDividendInfo localStorage generateContent stock = None.
Proof.
  intros H. unfold enrichStockBasicInfo, enrichStockDividendInfo.
  rewrite (getAI_without_key _ H). split; reflexivity.
Qed.

Lemma enrichment_needs_a_key_witness :
  enrichStockBasicInfo (clearAllData storage_with_key)
    (answering (js "PRICE:980, NAME:台積電")) named_2330 = None /\
  enrichStockBasicInfo storage_with_key
    (answering (js "PRICE:980, NAME:台積電")) named_2330 <> None.
Proof.
  split.
  - apply (enrichment_needs_a_key (clearAllData storage_with_key)). reflexivity.
  - vm_compute. discriminate.
Defined.

(** X13: a basic enrichment that returns a result returns a current price
    above 0 (so neither 0 nor [NaN]) and no dividend field. *)
Theorem basic_info_price_is_positive (localStorage : Storage)
    (generateContent : jsstring -> AIOutcome) (stock : AssetEntry) (patch : AssetPatch) :
  enrichStockBasicInfo localStorage generateContent stock = Some patch ->
  exists price,
    patch_currentPrice patch = Some price /\
    gt price zero = true /\ JsNumber.truthy price = true /\
    patch_dividendPerShare patch = None /\
    patch_dividendFrequency patch = None /\
    patch_exDate patch = None.
Proof.
  unfold enrichStockBasicInfo.
  destruct (getAI localStorage); [|discriminate].
  destruct (generateContent _) as [text|]; [|discriminate].
  cbv zeta.
  match goal with |- context [gt ?p zero] => set (price := p) end.
  destruct (gt price zero) eqn:E; [|discriminate].
  intros H. injection H as <-. exists price. cbn.
  repeat split; try assumption. apply gt_zero_truthy, E.
Qed.

Lemma basic_info_price_is_positive_witness :
  exists price,
    gt price zero = true /\
    enrichStockBasicInfo storage_with_key
      (answering (js "PRICE:1,080.5, NAME: 台積電 ")) named_2330 =
    Some {| patch_name := Some (js "台積電"); patch_currentPrice := Some price;
            patch_dividendPerShare := None; patch_dividendFrequency := None;
            patch_exDate := None |}.
Proof.
  assert (E : enrichStockBasicInfo storage_with_key
                (answering (js "PRICE:1,080.5, NAME: 台積電 ")) named_2330 =
              Some {| patch_name := Some (js "台積電");
                      patch_currentPrice := Some (of_decimal false 10805 (-1));
                      patch_dividendPerShare := None; patch_dividendFrequency := None;
                      patch_exDate := None |})
    by (vm_compute; reflexivity).
  destruct (basic_info_price_is_positive _ _ _ _ E) as (price & Hp & Hgt & _).
  cbn in Hp. injection Hp as <-.
  exists (of_decimal false 10805 (-1)). split; [exact Hgt|exact E].
Defined.

(** X14: for a position with a current price above 0, a dividend
    enrichment never returns a dividend per share above 20% of that price.
    With a stored key and an answered call: an answer whose dividend is above
    20% of the price is replaced by the dividend 0 with the frequency [N/A];
    an answer whose dividend is not above it is returned as it is, with its
    frequency and date; an answer without a dividend gives [null]. *)
Theorem dividend_yield_is_capped (localStorage : Storage)
    (generateContent : jsstring -> AIOutcome) (stock : AssetEntry) (price : number) :
  currentPrice (asset_stock stock) = Some price ->
  gt price zero = true ->
  let result := enrichStockDividendInfo localStorage generateContent stock in
  let limit := of_decimal false 20 (-2) in
  (forall patch, result = Some patch ->
     exists dps, patch_dividendPerShare patch = Some dps /\
                 gt (div dps price) limit = false) /\
  (forall response_text,
     getApiKey localStorage <> [] ->
     generateContent (dividendInfoPrompt stock) = Responded response_text ->
     let text := default [] response_text in
     match answeredDividend text with
     | None => result = None
     | Some dps =>
         if gt (div dps price) limit then
           result = Some {| patch_name := None; patch_currentPrice := None;
                            patch_dividendPerShare := Some zero;
                            patch_dividendFrequency := Some (js "N/A");
                            patch_exDate := None |}
         else
           result = Some {| patch_name := None; patch_currentPrice := None;
                            patch_dividendPerShare := Some dps;
                            patch_dividendFrequency := answeredFrequency text;
                            patch_exDate := answeredExDate text |}
     end).
Proof.
  intros Hp Hgt result limit.
  assert (Hexact : forall response_text,
    getApiKey localStorage <> [] ->
    generateContent (dividendInfoPrompt stock) = Responded response_text ->
    match answeredDividend (default [] response_text) with
    | None => result = None
    | Some dps =>
        if gt (div dps price) limit then
          result = Some {| patch_name := None; patch_currentPrice := None;
                           patch_dividendPerShare := Some zero;
                           patch_dividendFrequency := Some (js "N/A");
                           patch_exDate := None |}
        else
          result = Some {| patch_name := None; patch_currentPrice := None;
                           patch_dividendPerShare := Some dps;
                           patch_dividendFrequency :=
                             answeredFrequency (default [] response_text);
                           patch_exDate := answeredExDate (default [] response_text) |}
    end).
  { intros response_text Hkey Hgc. unfold result, enrichStockDividendInfo, getAI.
    destruct (getApiKey localStorage) as [|k key]; [contradiction|].
    cbn [JsString.truthy negb]. rewrite Hgc. cbv zeta. rewrite Hp.
    fold (answeredDividend (default [] response_text))
         (answeredFrequency (default [] response_text))
         (answeredExDate (default [] response_text)).
    destruct (answeredDividend (default [] response_text)) as [dps|]; [|reflexivity].
    cbn [from_option Number]. rewrite (gt_zero_truthy _ Hgt), Hgt. cbn [andb].
    fold limit. destruct (gt (div dps price) limit); reflexivity. }
  split; [|exact Hexact].
  intros patch H. unfold result, enrichStockDividendInfo in H.
  destruct (getAI localStorage); [|discriminate H].
  destruct (generateContent _) as [text|]; [|discriminate H].
  cbv zeta in H. rewrite Hp in H.
  destruct (option_map parseFloat _) as [dps|]; [|discriminate H].
  cbn [from_option Number] in H. rewrite (gt_zero_truthy _ Hgt), Hgt in H.
  cbn [andb] in H. fold limit in H.
  destruct (gt (div dps price) limit) eqn:E;
    injection H as <-; cbn [patch_dividendPerShare].
  - exists zero. split; [reflexivity|].
    destruct price as [s|s| |s m e]; try discriminate Hgt;
      destruct s; try discriminate Hgt; reflexivity.
  - exists dps. split; [reflexivity|exact E].
Qed.

Lemma dividend_yield_is_capped_witness :
  enrichStockDividendInfo storage_with_key
    (answering (js "FREQUENCY:Quarterly, TTM_DPS:165, EX_DATE:2024-09-12")) named_2330
  = Some {| patch_name := None; patch_currentPrice := None;
            patch_dividendPerShare := Some zero;
            patch_dividendFrequency := Some (js "N/A"); patch_exDate := None |} /\
  enrichStockDividendInfo storage_with_key
    (answering (js "FREQUENCY:Quarterly, TTM_DPS:16.5, EX_DATE:2024-09-12")) named_2330
  = Some {| patch_name := None; patch_currentPrice := None;
            patch_dividendPerShare := Some (of_decimal false 165 (-1));
            patch_dividendFrequency := Some (js "Quarterly");
            patch_exDate := Some (js "2024-09-12") |} /\
  enrichStockDividendInfo storage_with_key
    (answering (js "no dividend on record")) named_2330 = None.
Proof.
  assert (Hkey : getApiKey storage_with_key <> []) by (vm_compute; discriminate).
  split; [|split].
  - destruct (dividend_yield_is_capped storage_with_key
                (answering (js "FREQUENCY:Quarterly, TTM_DPS:165, EX_DATE:2024-09-12"))
                named_2330 (of_Z 650) eq_refl eq_refl) as (_ & H).
    exact (H _ Hkey eq_refl).
  - destruct (dividend_yield_is_capped storage_with_key
                (answering (js "FREQUENCY:Quarterly, TTM_DPS:16.5, EX_DATE:2024-09-12"))
                named_2330 (of_Z 650) eq_refl eq_refl) as (_ & H).
    exact (H _ Hkey eq_refl).
  - destruct (dividend_yield_is_capped storage_with_key
                (answering (js "no dividend on record"))
                named_2330 (of_Z 650) eq_refl eq_refl) as (_ & H).
    exact (H _ Hkey eq_refl).
Defined.

(** ** More about the parsed records *)

Section ParsedNumbers.


Lemma parseRows_length (cm : ColumnMap.t) (randomUUID : nat -> jsstring)
    (lines : list jsstring) (acc : list StockTransaction) :
  (length (parseRows cm randomUUID lines acc) <= length acc + length lines)%nat.
Proof.
  revert acc. induction lines as [|line lines IH]; intros acc; cbn [parseRows length].
  - lia.
  - destruct (includes line (js "小計") || includes line (js "總計")).
    + specialize (IH acc). lia.
    + destruct (tryRow cm _ line).
      * specialize (IH acc). lia.
      * specialize (IH acc). lia.
      * specialize (IH (acc ++ [t])). rewrite length_app in IH. cbn [length] in IH. lia.
Qed.

End ParsedNumbers.



(** X16: the shares, the average cost and the current price of every asset
    of the inventory parser are numbers, never [NaN]. *)
Theorem inventory_numbers_are_never_NaN (csvText : jsstring) (a : Inv.InventoryAsset) :
  In a (Inv.assets (parseStockInventoryCSV csvText)) ->
  isNaN (Inv.shares a) = false /\ isNaN (Inv.avgCost a) = false /\
  isNaN (Inv.currentPrice a) = false.
Proof.
  intros Hin. destruct (inventory_asset_has_line _ _ Hin) as (line & _ & Hr).
  unfold inventoryRow in Hr. destruct (negb _); [discriminate Hr|].
  injection Hr as <-. cbn [Inv.shares Inv.avgCost Inv.currentPrice].
  repeat split; apply cleanNumber_not_NaN.
Qed.

Lemma inventory_numbers_are_never_NaN_witness :
  Forall (fun a => isNaN (Inv.shares a) = false)
    (Inv.assets (parseStockInventoryCSV csv_inventory)) /\
  Inv.assets (parseStockInventoryCSV csv_inventory) <> [].
Proof.
  split; [|vm_compute; discriminate].
  apply Forall_forall. intros a Ha. apply list_elem_of_In in Ha.
  apply (inventory_numbers_are_never_NaN csv_inventory a Ha).
Defined.

(** X17: the transaction parser returns at most one record for each data
    line. *)
Theorem at_most_one_record_per_line (randomUUID : nat -> jsstring) (csvText : jsstring) :
  (length (transactions (parseStockTransactionCSV randomUUID csvText))
   <= length (dataLines csvText))%nat.
Proof.
  destruct (error (parseStockTransactionCSV randomUUID csvText)) eqn:E.
  - revert E. unfold parseStockTransactionCSV.
    destruct (length (csvLines csvText) <? 2)%nat; [intros _; cbn; lia|].
    destruct (0 <? length _)%nat; [intros _; cbn; lia|discriminate].
  - rewrite (parse_ok _ _ E).
    pose proof (parseRows_length (columnsOf csvText) randomUUID (dataLines csvText) []) as H.
    cbn [length] in H. lia.
Qed.

(** ** More about the calculator *)

(** X18: the dividend total of a position is decided by its symbol and the
    transactions alone: it is the sum of the attributed dividends for a
    non-empty symbol and 0 otherwise, whatever the shares, the prices, the
    ETF flag and the stored fee discount are. *)
Theorem dividends_depend_on_symbol_only (localStorage : Storage) (stock : Asset)
    (transactions : list Transaction) :
  totalDividends (calculateStockPerformance localStorage stock transactions) =
  match symbol stock with
  | Some (c :: s) => dividendSum (c :: s) transactions
  | _ => zero
  end.
Proof.
  unfold calculateStockPerformance.
  destruct (strictEq _ zero || strictEq _ zero); cbn [totalDividends];
    (destruct (symbol stock) as [[|c s]|]; try reflexivity;
     destruct transactions; reflexivity).
Qed.

(** X19: a held position without a usable current price (missing, [NaN] or
    0), with a finite number of shares and a finite fee discount, is valued
    at the minimum sell fee alone: market value 0, sell fee 20, tax 0,
    estimated return -20, and a net profit of -20 less the total cost. *)
Theorem missing_price_costs_the_minimum_fee (localStorage : Storage) (stock : Asset)
    (transactions : list Transaction) :
  strictEq (coercedShares stock) zero = false ->
  strictEq (coercedAvgCost stock) zero = false ->
  coercedCurrentPrice stock = zero ->
  isFinite (coercedShares stock) = true ->
  isFinite (getFeeDiscount localStorage) = true ->
  let r := calculateStockPerformance localStorage stock transactions in
  strictEq (marketValue r) zero = true /\
  sellFee r = of_Z 20 /\
  strictEq (tax r) zero = true /\
  estimatedReturn r = of_Z (-20) /\
  netProfit r = sub (of_Z (-20)) (totalCost r).
Proof.
  intros Hs Ha Hp Hfs Hfd r.
  assert (E : estimatedReturn r = sub (sub (marketValue r) (sellFee r)) (tax r) /\
              netProfit r = sub (estimatedReturn r) (totalCost r)).
  { unfold r, calculateStockPerformance.
    fold (coercedShares stock) (coercedAvgCost stock). rewrite Hs, Ha. split; reflexivity. }
  destruct (performance_held localStorage stock transactions Hs Ha) as (_ & Hl & Hm & Ht).
  fold r in Hl, Hm, Ht. destruct E as [Ee En].
  rewrite Hp in Hl, Hm.
  assert (Hmv : exists s, marketValue r = S754_zero s).
  { rewrite Hm. destruct (coercedShares stock) as [s|s| |s m e];
      try discriminate Hfs; try discriminate Hs; eexists; reflexivity. }
  destruct Hmv as (s & Hmv).
  assert (Hfee : sellFee r = of_Z 20).
  { rewrite Hl. unfold calculateFee. rewrite <- Hm, Hmv.
    destruct (getFeeDiscount localStorage) as [sd|sd| |sd md ed];
      try discriminate Hfd; destruct s; try destruct sd; reflexivity. }
  assert (Htax : exists s', tax r = S754_zero s').
  { rewrite Ht, Hmv.
    destruct (match isEtf stock with Some b => b | None => _ end);
      eexists; reflexivity. }
  destruct Htax as (s' & Htax).
  rewrite En, Ee, Hmv, Hfee, Htax.
  repeat split; destruct s; destruct s'; reflexivity.
Qed.

Lemma missing_price_costs_the_minimum_fee_witness :
  estimatedReturn (calculateStockPerformance ∅ stock_unpriced []) = of_Z (-20) /\
  netProfit (calculateStockPerformance ∅ stock_unpriced []) = of_Z (-600259).
Proof.
  assert (Hd : isFinite (getFeeDiscount ∅) = true) by (vm_compute; reflexivity).
  destruct (missing_price_costs_the_minimum_fee ∅ stock_unpriced []
              eq_refl eq_refl eq_refl eq_refl Hd) as (_ & _ & _ & He & Hn).
  split; [exact He|]. rewrite Hn. vm_compute. reflexivity.
Defined.

(** ** Facts about the daily snapshot *)

Section Snapshot.

Variable localStorage : Storage.
Variable today : jsstring.
Variable currentAssets : list AssetEntry.
Variable currentTransactions : list Transaction.

Lemma stringEq_refl (s : jsstring) : stringEq s s = true.
Proof.
  induction s as [|c s IH]; [reflexivity|]. cbn [stringEq].
  rewrite char_eqb_refl. exact IH.
Qed.

Lemma stringEq_eq (a b : jsstring) : stringEq a b = true -> a = b.
Proof.
  revert b. induction a as [|x a IH]; intros [|y b] H; try discriminate H; [reflexivity|].
  cbn [stringEq] in H. apply andb_true_iff in H. destruct H as [Hc Hs].
  apply N.eqb_eq in Hc. subst. f_equal. apply IH, Hs.
Qed.

(** The snapshot of today. *)
Let snapshot : StockSnapshot :=
  let stocks := List.filter (fun a => isStock (asset_type a)) currentAssets in
  if (length stocks =? 0)%nat then
    {| snapshot_date := today; totalMarketValue := zero; totalUnrealizedPL := zero;
       positions := [] |}
  else
    let totals :=
      fold_left (addStock localStorage currentTransactions) stocks
        {| sum_marketValue := zero; sum_unrealizedPL := zero; sum_positions := [] |} in
    {| snapshot_date := today; totalMarketValue := sum_marketValue totals;
       totalUnrealizedPL := sum_unrealizedPL totals;
       positions := sum_positions totals |}.

Lemma snapshot_is_of_today : snapshot_date snapshot = today.
Proof. unfold snapshot. destruct (length _ =? 0)%nat; reflexivity. Qed.

(** The new history is the entries of other days, less the oldest when
    there are 365 of them or more, and the snapshot of today. *)
Lemma takeStockSnapshot_shape (history : list StockSnapshot) :
  takeStockSnapshot localStorage today history currentAssets currentTransactions =
  (if (365 <=? length (otherDays today history))%nat then drop 1 (otherDays today history)
   else otherDays today history) ++ [snapshot].
Proof.
  unfold takeStockSnapshot. fold snapshot. fold (otherDays today history).
  unfold capHistory. rewrite length_app. cbn [length].
  destruct (Nat.ltb_spec 365 (length (otherDays today history) + 1));
    destruct (Nat.leb_spec 365 (length (otherDays today history))); try lia; [|reflexivity].
  destruct (otherDays today history); [cbn [length] in *; lia|reflexivity].
Qed.

Lemma otherDays_fixed (entries : list StockSnapshot) :
  Forall (fun h => stringEq (snapshot_date h) today = false) entries ->
  otherDays today entries = entries.
Proof.
  induction 1 as [|h entries Hh _ IH]; [reflexivity|].
  unfold otherDays in *. cbn [List.filter]. rewrite Hh. cbn [negb]. rewrite IH. reflexivity.
Qed.

Lemma otherDays_not_today (history : list StockSnapshot) :
  Forall (fun h => stringEq (snapshot_date h) today = false) (otherDays today history).
Proof.
  apply Forall_forall. intros h Hh. apply list_elem_of_In in Hh.
  unfold otherDays in Hh. apply filter_In in Hh. destruct Hh as [_ Hh].
  destruct (stringEq (snapshot_date h) today); [discriminate Hh|reflexivity].
Qed.

Lemma drop_Forall {A : Type} (P : A -> Prop) (n : nat) (xs : list A) :
  Forall P xs -> Forall P (drop n xs).
Proof.
  intros H. revert n. induction H as [|x xs Hx H IH]; intros [|n]; cbn [drop];
    try constructor; auto.
Qed.

Lemma otherDays_length (history : list StockSnapshot) :
  (length (otherDays today history) <= length history)%nat.
Proof. unfold otherDays. apply filter_length_le. Qed.

(** The totals of the loop, from any start. *)
Lemma addStock_fold (stocks : list AssetEntry) (acc : SnapshotTotals) :
  Forall (fun a => isStock (asset_type a) = true) stocks ->
  let totals := fold_left (addStock localStorage currentTransactions) stocks acc in
  sum_positions totals =
    sum_positions acc ++ positionsOf localStorage currentTransactions stocks /\
  sum_marketValue totals =
    fold_left add
      (List.map position_marketValue
         (positionsOf localStorage currentTransactions stocks))
      (sum_marketValue acc).
Proof.
  intros H. revert acc. induction H as [|a stocks Ha _ IH]; intros acc.
  - cbn. rewrite app_nil_r. split; reflexivity.
  - cbn [fold_left]. destruct (IH (addStock localStorage currentTransactions acc a))
      as [Hp Hm].
    cbv zeta. rewrite Hp, Hm. unfold positionsOf. cbn [omap list_omap]. rewrite Ha.
    unfold addStock.
    destruct (symbol (asset_stock a)) as [[|c s]|]; cbn; try (split; reflexivity).
    rewrite <- app_assoc. split; reflexivity.
Qed.

Lemma positionsOf_stocks :
  positionsOf localStorage currentTransactions
    (List.filter (fun a => isStock (asset_type a)) currentAssets) =
  positionsOf localStorage currentTransactions currentAssets.
Proof.
  unfold positionsOf. induction currentAssets as [|a assets IH]; [reflexivity|].
  cbn [List.filter omap list_omap].
  destruct (isStock (asset_type a)) eqn:E.
  - cbn [omap list_omap]. rewrite E, IH. reflexivity.
  - exact IH.
Qed.

Lemma snapshot_content :
  positions snapshot = positionsOf localStorage currentTransactions currentAssets /\
  totalMarketValue snapshot =
    fold_left add (List.map position_marketValue (positions snapshot)) zero.
Proof.
  unfold snapshot. rewrite <- positionsOf_stocks.
  set (stocks := List.filter (fun a => isStock (asset_type a)) currentAssets).
  destruct (length stocks =? 0)%nat eqn:E.
  - apply Nat.eqb_eq in E. destruct stocks; [|discriminate E]. split; reflexivity.
  - assert (Hs : Forall (fun a => isStock (asset_type a) = true) stocks).
    { apply Forall_forall. intros a Ha. apply list_elem_of_In in Ha.
      unfold stocks in Ha. apply filter_In in Ha. apply Ha. }
    destruct (addStock_fold stocks
                {| sum_marketValue := zero; sum_unrealizedPL := zero; sum_positions := [] |}
                Hs) as [Hp Hm].
    cbn [positions totalMarketValue]. rewrite Hp, Hm. split; reflexivity.
Qed.

(** The shape of the history after a snapshot. *)
Lemma takeStockSnapshot_history (history : list StockSnapshot) :
  exists older,
    takeStockSnapshot localStorage today history currentAssets currentTransactions =
      older ++ [snapshot] /\
    (older = otherDays today history \/ older = drop 1 (otherDays today history)) /\
    Forall (fun h => stringEq (snapshot_date h) today = false) older /\
    ((length history <= 365)%nat -> (length older < 365)%nat).
Proof.
  rewrite takeStockSnapshot_shape.
  pose proof (otherDays_not_today history) as Hn.
  pose proof (otherDays_length history) as Hl.
  destruct (Nat.leb_spec 365 (length (otherDays today history))).
  - exists (drop 1 (otherDays today history)). split; [reflexivity|]. split; [right; reflexivity|].
    split; [apply drop_Forall, Hn|]. intros Hh. rewrite length_drop. lia.
  - exists (otherDays today history). split; [reflexivity|]. split; [left; reflexivity|].
    split; [exact Hn|]. intros; lia.
Qed.

End Snapshot.

(** X20: after a stock snapshot the saved history ends with the snapshot of
    today, holds no other entry of today, and before it keeps the entries of
    the other days in their order: all of them when there were fewer than
    365, and all but the oldest when there were 365 or more. It stays within
    365 entries when it was within 365. *)
Theorem snapshot_keeps_one_entry_per_day (localStorage : Storage) (today : jsstring)
    (history : list StockSnapshot) (currentAssets : list AssetEntry)
    (currentTransactions : list Transaction) :
  let after :=
    takeStockSnapshot localStorage today history currentAssets currentTransactions in
  exists older latest,
    after = older ++ [latest] /\
    snapshot_date latest = today /\
    Forall (fun h => snapshot_date h <> today) older /\
    ((length (otherDays today history) < 365)%nat -> older = otherDays today history) /\
    ((365 <= length (otherDays today history))%nat ->
     older = drop 1 (otherDays today history)) /\
    ((length history <= 365)%nat -> (length after <= 365)%nat).
Proof.
  intros after.
  destruct (takeStockSnapshot_history localStorage today currentAssets currentTransactions
              history) as (older & E & _ & Hn & Hlen).
  pose proof (takeStockSnapshot_shape localStorage today currentAssets currentTransactions
                history) as Hshape.
  rewrite E in Hshape. apply app_inj_tail in Hshape. destruct Hshape as [Hold _].
  eexists older, _. split; [exact E|].
  split; [apply snapshot_is_of_today|].
  split; [|split; [|split]].
  - eapply Forall_impl; [exact Hn|]. cbn. intros h Hh Heq.
    rewrite Heq, stringEq_refl in Hh. discriminate Hh.
  - intros Hlt. rewrite Hold.
    destruct (Nat.leb_spec 365 (length (otherDays today history))); [lia|reflexivity].
  - intros Hge. rewrite Hold.
    destruct (Nat.leb_spec 365 (length (otherDays today history))); [reflexivity|lia].
  - intros Hh. unfold after. rewrite E, length_app. cbn [length].
    specialize (Hlen Hh). lia.
Qed.

Lemma snapshot_keeps_one_entry_per_day_witness :
  length (takeStockSnapshot ∅ (js "2024-01-15") history_example portfolio_example []) = 2%nat /\
  exists latest,
    takeStockSnapshot ∅ (js "2024-01-15") history_example portfolio_example [] =
      history_example ++ [latest] /\
    snapshot_date latest = js "2024-01-15".
Proof.
  split; [vm_compute; reflexivity|].
  destruct (snapshot_keeps_one_entry_per_day ∅ (js "2024-01-15") history_example
              portfolio_example []) as (older & latest & E & Hd & _ & Hkeep & _).
  assert (Hk : older = otherDays (js "2024-01-15") history_example)
    by (apply Hkeep; vm_compute; lia).
  assert (Ho : otherDays (js "2024-01-15") history_example = history_example)
    by (vm_compute; reflexivity).
  rewrite Ho in Hk. subst older.
  exists latest. split; [exact E|exact Hd].
Defined.

(** X21: within 365 entries, taking the stock snapshot again on the same
    day with the same assets and transactions changes nothing. *)
Theorem snapshot_twice_is_once (localStorage : Storage) (today : jsstring)
    (history : list StockSnapshot) (currentAssets : list AssetEntry)
    (currentTransactions : list Transaction) :
  (length history <= 365)%nat ->
  let once :=
    takeStockSnapshot localStorage today history currentAssets currentTransactions in
  takeStockSnapshot localStorage today once currentAssets currentTransactions = once /\
  existsb (fun h => stringEq (snapshot_date h) today) once = true.
Proof.
  intros Hh once.
  destruct (takeStockSnapshot_history localStorage today currentAssets currentTransactions
              history) as (older & E & _ & Hn & Hlen).
  fold once in E. specialize (Hlen Hh). split.
  - rewrite takeStockSnapshot_shape.
    assert (Ho : otherDays today once = older).
    { rewrite E. unfold otherDays. rewrite List.filter_app. cbn [List.filter].
      rewrite snapshot_is_of_today, stringEq_refl. cbn [negb]. rewrite app_nil_r.
      apply otherDays_fixed, Hn. }
    rewrite Ho. destruct (Nat.leb_spec 365 (length older)); [lia|].
    symmetry. exact E.
  - rewrite E, existsb_app. cbn [existsb].
    rewrite snapshot_is_of_today, stringEq_refl. rewrite orb_true_r. reflexivity.
Qed.

Lemma snapshot_twice_is_once_witness :
  takeStockSnapshot ∅ (js "2024-01-15")
    (takeStockSnapshot ∅ (js "2024-01-15") history_example portfolio_example [])
    portfolio_example [] =
  takeStockSnapshot ∅ (js "2024-01-15") history_example portfolio_example [].
Proof.
  apply (snapshot_twice_is_once ∅ (js "2024-01-15") history_example portfolio_example []).
  vm_compute. lia.
Defined.

(** X22: the snapshot of today lists the stocks that have a non-empty
    symbol, in the order of the assets, each with the market value the
    calculator gives it; assets of another type are not counted; and its
    total market value is the sum, from 0 and in that order, of the listed
    market values. *)
Theorem snapshot_totals_match_positions (localStorage : Storage) (today : jsstring)
    (history : list StockSnapshot) (currentAssets : list AssetEntry)
    (currentTransactions : list Transaction) :
  exists latest,
    last (takeStockSnapshot localStorage today history currentAssets currentTransactions)
      = Some latest /\
    positions latest = positionsOf localStorage currentTransactions currentAssets /\
    totalMarketValue latest =
      fold_left add (List.map position_marketValue (positions latest)) zero.
Proof.
  destruct (takeStockSnapshot_history localStorage today currentAssets currentTransactions
              history) as (older & E & _).
  eexists. rewrite E, last_snoc. split; [reflexivity|].
  apply snapshot_content.
Qed.
